(** * The Databento stream bridge (src/data/databento_stream.py)

    A shallow embedding of the bridge that turns provider records into
    JSON lines: the timestamp formatter, the event emitter, the signal
    handler, the live session loop and the historical batch fetcher.

    Python values are modelled by inductive types, floats by the IEEE-754
    binary64 specification of the standard library ([SpecFloat], no
    primitive floats), exceptions by a result type, and the effects of the
    program (lines written to stdout, calls into the provider client,
    [sys.exit], pending signals) by a small state-and-trace monad. *)

From Stdlib Require Import ZArith List String Ascii Bool Lia.
From Stdlib Require Import SpecFloat DecimalString DecimalPos.
Import ListNotations.

Local Open Scope string_scope.
Local Open Scope Z_scope.
Local Open Scope list_scope.

#[local] Set Warnings "-register-all".

(** ** Python values *)

(** The values a provider record carries in its fields: [None], booleans,
    integers (timestamps, fixed-point prices, sizes) and strings (action
    and side codes, messages).  Floats never occur in provider fields. *)
Inductive scalar : Type :=
| SNone
| SBool (b : bool)
| SInt (z : Z)
| SStr (s : string).

(** The values the program builds and hands to [json.dumps]. *)
Inductive value : Type :=
| VNone
| VBool (b : bool)
| VInt (z : Z)
| VFloat (f : spec_float)
| VStr (s : string)
| VList (l : list value)
| VDict (d : list (string * value)).

(** A dict literal with string keys, in insertion order. *)
Definition event : Type := list (string * value).

Definition of_scalar (v : scalar) : value :=
  match v with
  | SNone => VNone
  | SBool b => VBool b
  | SInt z => VInt z
  | SStr s => VStr s
  end.

Definition keys (d : event) : list string := map fst d.

Fixpoint lookup {A : Type} (k : string) (d : list (string * A)) : option A :=
  match d with
  | [] => None
  | (k', v) :: d' => if String.eqb k k' then Some v else lookup k d'
  end.

(** ** Exceptions

    Only subclasses of [Exception] are values of [exn]; [SystemExit] is a
    separate outcome of a computation (see [outcome] below), which is why
    an [except Exception] clause never sees it. *)
Inductive exn_class : Type :=
| AttributeError
| TypeError
| ValueError
| OverflowError
| ZeroDivisionError
| OSError
| BrokenPipeError
| ImportError
| RuntimeError
| ProviderError (name : string).

Record exn : Type := MkExn { exn_cls : exn_class; exn_msg : string }.

(** [str(e)] *)
Definition str_exn (e : exn) : string := exn_msg e.

Definition is_BrokenPipeError (e : exn) : bool :=
  match exn_cls e with
  | BrokenPipeError => true
  | _ => false
  end.

Inductive result (A : Type) : Type :=
| Ok (a : A)
| Err (x : exn).
Arguments Ok {A} a.
Arguments Err {A} x.

Definition rbind {A B : Type} (r : result A) (k : A -> result B) : result B :=
  match r with
  | Ok a => k a
  | Err x => Err x
  end.

Notation "'let?' x ':=' e 'in' k" := (rbind e (fun x => k))
  (at level 10, x name, e at level 100, k at level 200).

(** ** Builtins: [str], [isinstance(_, int)], decimal rendering *)

Definition str_Z (z : Z) : string := NilZero.string_of_int (Z.to_int z).

(** [str(v)] for a field value. *)
Definition py_str (v : scalar) : string :=
  match v with
  | SNone => "None"
  | SBool true => "True"
  | SBool false => "False"
  | SInt z => str_Z z
  | SStr s => s
  end.

(** [type(v).__name__] *)
Definition type_name (v : scalar) : string :=
  match v with
  | SNone => "NoneType"
  | SBool _ => "bool"
  | SInt _ => "int"
  | SStr _ => "str"
  end.

(** [isinstance(v, int)]: [bool] is a subclass of [int]. *)
Definition isinstance_int (v : scalar) : bool :=
  match v with
  | SInt _ | SBool _ => true
  | _ => false
  end.

(** ** Floats: IEEE-754 binary64 *)

Definition prec : Z := 53.
Definition emax : Z := 1024.

Definition float_of_Z (z : Z) : spec_float := binary_normalize prec emax z 0 false.
Definition fdiv : spec_float -> spec_float -> spec_float := SFdiv prec emax.
Definition fmul : spec_float -> spec_float -> spec_float := SFmul prec emax.

(** The literals [1e9] and (inside [datetime]) [1e6]; both are exact. *)
Definition f1e9 : spec_float := float_of_Z 1000000000.
Definition f1e6 : spec_float := float_of_Z 1000000.

Definition is_zero (f : spec_float) : bool :=
  match f with
  | S754_zero _ => true
  | _ => false
  end.

(** [float(z)] as done by the true division of an int by a float: rounded
    to nearest even, [OverflowError] when the result is not finite. *)
Definition float_of_int (z : Z) : result spec_float :=
  match float_of_Z z with
  | S754_infinity _ => Err (MkExn OverflowError "int too large to convert to float")
  | f => Ok f
  end.

(** [v / d] for a field value [v] and a float [d]. *)
Definition truediv (v : scalar) (d : spec_float) : result spec_float :=
  match v with
  | SInt z =>
      let? f := float_of_int z in
      if is_zero d then Err (MkExn ZeroDivisionError "float division by zero")
      else Ok (fdiv f d)
  | SBool b =>
      let? f := float_of_int (if b then 1 else 0) in
      if is_zero d then Err (MkExn ZeroDivisionError "float division by zero")
      else Ok (fdiv f d)
  | _ =>
      Err (MkExn TypeError
             ("unsupported operand type(s) for /: '" ++ type_name v ++ "' and 'float'"))
  end.

(** [math.modf]: the integral part (an exact integer) and the fractional
    part, both with the sign of the argument. *)
Definition float_modf (f : spec_float) : Z * spec_float :=
  match f with
  | S754_finite s m e =>
      if 0 <=? e then (cond_Zopp s (Zpos m * 2 ^ e), S754_zero s)
      else
        let d := 2 ^ (- e) in
        (cond_Zopp s (Zpos m / d),
         binary_normalize prec emax (cond_Zopp s (Zpos m mod d)) e s)
  | _ => (0, f)
  end.

(** Rounding of a finite float to the nearest integer, ties to even. *)
Definition float_round_half_even (f : spec_float) : Z :=
  match f with
  | S754_finite s m e =>
      if 0 <=? e then cond_Zopp s (Zpos m * 2 ^ e)
      else
        let d := 2 ^ (- e) in
        let q := Zpos m / d in
        let r := Zpos m mod d in
        cond_Zopp s
          (if 2 * r <? d then q
           else if d <? 2 * r then q + 1
           else if Z.even q then q else q + 1)
  | _ => 0
  end.

(** ** [datetime.fromtimestamp(t, tz=timezone.utc).isoformat()]

    After CPython's implementation on a POSIX platform with a 64-bit
    [time_t]: the float is split by [modf], the fraction is scaled to
    microseconds and rounded half-even, the seconds are broken down by
    [gmtime], and the year has to lie in [MINYEAR, MAXYEAR]. *)
Record datetime : Type := MkDatetime {
  year : Z; month : Z; day : Z;
  hour : Z; minute : Z; second : Z; microsecond : Z
}.

(** Proleptic Gregorian date of a day number counted from 1970-01-01. *)
Definition civil_from_days (days : Z) : Z * Z * Z :=
  let z := days + 719468 in
  let era := z / 146097 in
  let doe := z - era * 146097 in
  let yoe := (doe - doe / 1460 + doe / 36524 - doe / 146096) / 365 in
  let doy := doe - (365 * yoe + yoe / 4 - yoe / 100) in
  let mp := (5 * doy + 2) / 153 in
  let d := doy - (153 * mp + 2) / 5 + 1 in
  let m := if mp <? 10 then mp + 3 else mp - 9 in
  let y := yoe + era * 400 in
  (if m <=? 2 then y + 1 else y, m, d).

Definition time_t_min : Z := - 2 ^ 63.
Definition time_t_max : Z := 2 ^ 63 - 1.
Definition int_min : Z := - 2 ^ 31.
Definition int_max : Z := 2 ^ 31 - 1.
Definition MINYEAR : Z := 1.
Definition MAXYEAR : Z := 9999.

Definition fromtimestamp_utc (t : spec_float) : result datetime :=
  match t with
  | S754_nan => Err (MkExn ValueError "Invalid value NaN (not a number)")
  | S754_infinity _ =>
      Err (MkExn OverflowError "timestamp out of range for platform time_t")
  | _ =>
      let '(intpart, frac) := float_modf t in
      let us0 := float_round_half_even (fmul frac f1e6) in
      let '(secs, us) :=
        if 1000000 <=? us0 then (intpart + 1, us0 - 1000000)
        else if us0 <? 0 then (intpart - 1, us0 + 1000000)
        else (intpart, us0) in
      if negb ((time_t_min <=? secs) && (secs <=? time_t_max)) then
        Err (MkExn OverflowError "timestamp out of range for platform time_t")
      else
        let days := secs / 86400 in
        let rem := secs mod 86400 in
        let '(y, m, d) := civil_from_days days in
        if negb ((int_min <=? y - 1900) && (y - 1900 <=? int_max)) then
          Err (MkExn OSError "[Errno 75] Value too large for defined data type")
        else if negb ((MINYEAR <=? y) && (y <=? MAXYEAR)) then
          Err (MkExn ValueError ("year " ++ str_Z y ++ " is out of range"))
        else
          Ok (MkDatetime y m d (rem / 3600) (rem mod 3600 / 60) (rem mod 60) us)
  end.

(** [w] decimal digits of [n], zero padded. *)
Fixpoint digits (w : nat) (n : Z) : string :=
  match w with
  | O => EmptyString
  | S w' =>
      (digits w' (n / 10) ++
       String (ascii_of_nat (48 + Z.to_nat (n mod 10))) EmptyString)%string
  end.

(** [dt.isoformat()] for an aware datetime in UTC: the date and the time,
    the microseconds only when they are not zero, and then the offset. *)
Definition isoformat_naive (dt : datetime) : string :=
  (digits 4 (year dt) ++ "-" ++ digits 2 (month dt) ++ "-" ++ digits 2 (day dt)
   ++ "T" ++ digits 2 (hour dt) ++ ":" ++ digits 2 (minute dt) ++ ":"
   ++ digits 2 (second dt)
   ++ (if (microsecond dt =? 0)%Z then "" else "." ++ digits 6 (microsecond dt)))%string.

Definition isoformat (dt : datetime) : string :=
  (isoformat_naive dt ++ "+00:00")%string.

(** ** [format_timestamp] (source lines 38-45) *)
Definition format_timestamp (ts_event : scalar) : result string :=
  if isinstance_int ts_event then
    let? seconds := truediv ts_event f1e9 in
    let? dt := fromtimestamp_utc seconds in
    Ok (isoformat dt)
  else Ok (py_str ts_event).

(** [int(s)] for a string: optional surrounding whitespace, an optional
    sign, then decimal digits, where single underscores may separate
    digits. *)
Definition is_space (c : ascii) : bool :=
  let n := nat_of_ascii c in
  (Nat.eqb n 32 || (Nat.leb 9 n && Nat.leb n 13) || (Nat.leb 28 n && Nat.leb n 31))%bool.

Fixpoint lstrip (s : string) : string :=
  match s with
  | String c s' => if is_space c then lstrip s' else s
  | EmptyString => EmptyString
  end.

Fixpoint rstrip (s : string) : string :=
  match s with
  | String c s' =>
      match rstrip s' with
      | EmptyString => if is_space c then EmptyString else String c EmptyString
      | t => String c t
      end
  | EmptyString => EmptyString
  end.

Definition digit_of (c : ascii) : option Z :=
  let n := nat_of_ascii c in
  if (Nat.leb 48 n && Nat.leb n 57)%bool then Some (Z.of_nat n - 48) else None.

(** [after_digit] tells whether the previous character was a digit: an
    underscore is accepted only between two digits. *)
Fixpoint parse_digits (s : string) (acc : Z) (after_digit : bool) : option Z :=
  match s with
  | EmptyString => if after_digit then Some acc else None
  | String c s' =>
      match digit_of c with
      | Some d => parse_digits s' (10 * acc + d) true
      | None =>
          if (Ascii.eqb c "_" && after_digit)%bool then parse_digits s' acc false
          else None
      end
  end.

Definition py_int (s : string) : result Z :=
  let bad := Err (MkExn ValueError
                    ("invalid literal for int() with base 10: '" ++ s ++ "'")) in
  match rstrip (lstrip s) with
  | String "-" t => match parse_digits t 0 false with Some n => Ok (- n) | None => bad end
  | String "+" t => match parse_digits t 0 false with Some n => Ok n | None => bad end
  | t => match parse_digits t 0 false with Some n => Ok n | None => bad end
  end.

(** ** Provider records

    A record is known by its type name and its attributes.  Attributes
    hold field values; the [levels] attribute of a quote record, when the
    record has one, holds a sequence of price-level objects, each again a
    set of attributes.  [hasattr(obj, name)] is whether [lookup] finds
    [name] among the attributes of [obj]. *)
Definition level : Type := list (string * scalar).

Record record : Type := MkRecord {
  rtype : string;
  fields : list (string * scalar);
  levels : option (list level)
}.

Definition no_attribute (tyname name : string) : exn :=
  MkExn AttributeError
    ("'" ++ tyname ++ "' object has no attribute '" ++ name ++ "'").

(** [record.name] *)
Definition getattr (r : record) (name : string) : result scalar :=
  match lookup name (fields r) with
  | Some v => Ok v
  | None => Err (no_attribute (rtype r) name)
  end.

(** [record.levels] *)
Definition get_levels (r : record) : result (list level) :=
  match levels r with
  | Some l => Ok l
  | None => Err (no_attribute (rtype r) "levels")
  end.

(** ** Effects

    A computation runs in a state made of: the output pipe (how many more
    writes the downstream reader accepts; [None] when it never goes
    away); a pending signal and where it will be delivered; whether the
    buffered writer of [sys.stdout] is in the middle of a write; and
    whether that writer holds data that a failed flush left behind.  A
    computation returns an outcome, the trace of what it did, and the new
    state. *)
Inductive signum : Type := SIGTERM | SIGINT.

(** Where a pending signal reaches the main thread: at a statement
    boundary, after [n] more of them, or while a line is being written,
    after [n] more writes. *)
Inductive delivery : Type :=
| At_boundary (n : nat)
| In_write (n : nat).

Record st : Type := MkSt {
  pipe : option nat;
  pending : option (delivery * signum);
  busy : bool;
  unflushed : bool
}.

Inductive call : Type :=
| Import_databento
| Live (key : string)
| Subscribe (dataset schema stype_in symbols : string)
| Historical (key : string)
| Get_range (kwargs : list (string * value))
| Replay.

Inductive obs : Type :=
| Wrote (data : event)   (* one JSON line on stdout, flushed *)
| Called (c : call)      (* a call into the provider's package *)
| Boundary.              (* a statement boundary passed with no signal *)

Inductive outcome (A : Type) : Type :=
| Done (a : A)           (* normal completion *)
| Raise (x : exn)        (* an exception deriving from Exception *)
| Exit (code : Z).       (* SystemExit raised by sys.exit(code) *)
Arguments Done {A} a.
Arguments Raise {A} x.
Arguments Exit {A} code.

Definition M (A : Type) : Type := st -> outcome A * list obs * st.

Definition ret {A : Type} (a : A) : M A := fun s => (Done a, [], s).

Definition bind {A B : Type} (m : M A) (k : A -> M B) : M B :=
  fun s =>
    match m s with
    | (Done a, o1, s1) => let '(r, o2, s2) := k a s1 in (r, o1 ++ o2, s2)
    | (Raise x, o1, s1) => (Raise x, o1, s1)
    | (Exit c, o1, s1) => (Exit c, o1, s1)
    end.

Notation "x <- m ;; k" := (bind m (fun x => k))
  (at level 61, m at next level, right associativity).
Notation "m ;; k" := (bind m (fun _ => k))
  (at level 61, right associativity).

Definition raise {A : Type} (x : exn) : M A := fun s => (Raise x, [], s).

(** [sys.exit(code)] *)
Definition sys_exit {A : Type} (code : Z) : M A := fun s => (Exit code, [], s).

(** A pure expression that may raise. *)
Definition lift {A : Type} (r : result A) : M A :=
  match r with
  | Ok a => ret a
  | Err x => raise x
  end.

(** [try: body / except C as e: handler e], where [catches] tells which
    exceptions the clause names; the others propagate, and so does
    [SystemExit]. *)
Definition try_except {A : Type} (catches : exn -> bool)
    (body : M A) (handler : exn -> M A) : M A :=
  fun s =>
    match body s with
    | (Raise x, o1, s1) =>
        if catches x then let '(r, o2, s2) := handler x s1 in (r, o1 ++ o2, s2)
        else (Raise x, o1, s1)
    | other => other
    end.

(** [except Exception] *)
Definition Exception (x : exn) : bool := true.

(** A call into the provider's package, which returns or raises. *)
Definition provider_call {A : Type} (c : call) (r : result A) : M A :=
  fun s =>
    match r with
    | Ok a => (Done a, [Called c], s)
    | Err x => (Raise x, [Called c], s)
    end.

(** Writing one line to [sys.stdout] and flushing it.  The buffered
    writer is not reentrant: a write attempted while another is in
    progress raises [RuntimeError] (Python's [io] documentation,
    "Reentrancy").  Otherwise the line reaches the reader, or the reader
    is gone, the flush raises [BrokenPipeError] and the line stays in the
    buffer. *)
Definition write_and_flush (data : event) : M unit :=
  fun s =>
    if busy s then
      (Raise (MkExn RuntimeError
                "reentrant call inside <_io.BufferedWriter name='<stdout>'>"),
       [], s)
    else
      match pipe s with
      | None => (Done tt, [Wrote data], s)
      | Some (S k) =>
          (Done tt, [Wrote data], MkSt (Some k) (pending s) (busy s) (unflushed s))
      | Some O =>
          (Raise (MkExn BrokenPipeError "[Errno 32] Broken pipe"), [],
           MkSt (pipe s) (pending s) (busy s) true)
      end.

(** ** [emit] (source lines 24-29), over the [print] it calls *)
Definition emit_over (print : event -> M unit) (data : event) : M unit :=
  try_except is_BrokenPipeError (print data) (fun _ => sys_exit 0).

(** ** [handle_sigterm] (source lines 31-33), installed for SIGTERM and
    SIGINT (lines 35-36).  One signal is followed: while its handler runs
    no other is pending, so the [print] of the handler is the bare write. *)
Definition shutting_down : event :=
  [("type", VStr "status"); ("message", VStr "shutting_down")].

Definition handle_sigterm (signum_ : signum) : M unit :=
  emit_over write_and_flush shutting_down ;;
  sys_exit 0.

(** [print(json.dumps(data), flush=True)] in the main program.  A signal
    that is due during the write is handled before [print] returns (the
    write loop of the buffered writer runs the pending handlers), with
    the writer still in the middle of its write; what the handler raises
    propagates out of [print]. *)
Definition print_json (data : event) : M unit :=
  fun s =>
    match write_and_flush data s with
    | (Done _, o1, s1) =>
        match pending s1 with
        | Some (In_write O, sg) =>
            let '(r, o2, s2) :=
              handle_sigterm sg (MkSt (pipe s1) None true (unflushed s1)) in
            (r, o1 ++ o2, MkSt (pipe s2) (pending s2) false (unflushed s2))
        | Some (In_write (S n), sg) =>
            (Done tt, o1,
             MkSt (pipe s1) (Some (In_write n, sg)) (busy s1) (unflushed s1))
        | _ => (Done tt, o1, s1)
        end
    | other => other
    end.

Definition emit (data : event) : M unit := emit_over print_json data.

(** A statement boundary: a signal that is due is handled here, by the
    handler installed for it, in the main thread; whatever the handler
    raises propagates from this point. *)
Definition checkpoint : M unit :=
  fun s =>
    match pending s with
    | Some (At_boundary O, sg) =>
        handle_sigterm sg (MkSt (pipe s) None (busy s) (unflushed s))
    | Some (At_boundary (S n), sg) =>
        (Done tt, [Boundary],
         MkSt (pipe s) (Some (At_boundary n, sg)) (busy s) (unflushed s))
    | _ => (Done tt, [Boundary], s)
    end.

(** The status the process ends with.  [sys.exit(c)] ends it with [c], a
    normal return with 0, an exception that nothing catches with 1; but
    when the flush of [sys.stdout] that the interpreter does on its way
    out fails, because the buffer still holds what the reader never
    took, the status becomes 120 (documentation of [sys.exit]). *)
Definition exit_status {A : Type} (r : outcome A) (s : st) : Z :=
  if unflushed s then 120
  else match r with
       | Done _ => 0
       | Exit c => c
       | Raise _ => 1
       end.

(** The statement [m], preceded by its boundary. *)
Definition stmt {A : Type} (m : M A) : M A := checkpoint ;; m.

(** ** The provider

    The [databento] package is outside the program; its behaviour during
    one run is given by what each of its entry points answers. *)
Record provider : Type := MkProvider {
  installed : bool;                 (* [import databento] succeeds *)
  live_answer : result unit;        (* [db.Live(key=...)] *)
  subscribe_answer : result unit;   (* [client.subscribe(...)] *)
  feed : list record;               (* what iterating the live client yields *)
  feed_end : option exn;            (* then StopIteration, or this fault *)
  historical_answer : result unit;  (* [db.Historical(key)] *)
  get_range_answer :                (* [client.timeseries.get_range] on the kwargs: *)
    list (string * value) -> result (list record * option exn)
                                    (* the records a replay goes through,
                                       and the fault it ends with, if any *)
}.

Definition is_ImportError (e : exn) : bool :=
  match exn_cls e with
  | ImportError => true
  | _ => false
  end.

(** [import databento as db] *)
Definition import_databento (p : provider) : M unit :=
  provider_call Import_databento
    (if installed p then Ok tt
     else Err (MkExn ImportError "No module named 'databento'")).

(** The [try: import ... except ImportError: ...] block that opens both
    [run_live_stream] (lines 49-53) and [run_historical] (lines 138-142). *)
Definition import_or_exit (p : provider) : M unit :=
  stmt (try_except is_ImportError
          (stmt (import_databento p))
          (fun _ =>
             stmt (emit [("type", VStr "error");
                         ("message",
                          VStr "databento package not installed. Run: pip install databento")]) ;;
             stmt (sys_exit 1))).

(** ** The record mapper of live mode (the dict displays of lines 76-123) *)

(** [str(obj.name) if hasattr(obj, name) else default] *)
Definition str_attr_or (attrs : list (string * scalar)) (name : string)
    (default : value) : value :=
  match lookup name attrs with
  | Some v => VStr (py_str v)
  | None => default
  end.

(** lines 76-84 *)
Definition live_trade (symbol : string) (r : record) : result event :=
  let? ts_event := getattr r "ts_event" in
  let? ts := format_timestamp ts_event in
  let? price := getattr r "price" in
  let? price' := truediv price f1e9 in
  let? size := getattr r "size" in
  Ok [("type", VStr "trade");
      ("ts", VStr ts);
      ("price", VFloat price');
      ("size", of_scalar size);
      ("symbol", VStr symbol);
      ("action", str_attr_or (fields r) "action" VNone);
      ("side", str_attr_or (fields r) "side" VNone)].

(** lines 87-96, and again lines 168-177 *)
Definition ohlcv (symbol : string) (r : record) : result event :=
  let? ts_event := getattr r "ts_event" in
  let? ts := format_timestamp ts_event in
  let? open := getattr r "open" in
  let? open' := truediv open f1e9 in
  let? high := getattr r "high" in
  let? high' := truediv high f1e9 in
  let? low := getattr r "low" in
  let? low' := truediv low f1e9 in
  let? close := getattr r "close" in
  let? close' := truediv close f1e9 in
  let? volume := getattr r "volume" in
  Ok [("type", VStr "ohlcv");
      ("ts", VStr ts);
      ("open", VFloat open');
      ("high", VFloat high');
      ("low", VFloat low');
      ("close", VFloat close');
      ("volume", of_scalar volume);
      ("symbol", VStr symbol)].

(** [level.name / 1e9 if hasattr(level, name) else None] *)
Definition px_or_none (lv : level) (name : string) : result value :=
  match lookup name lv with
  | Some v => let? f := truediv v f1e9 in Ok (VFloat f)
  | None => Ok VNone
  end.

(** [level.name if hasattr(level, name) else None] *)
Definition sz_or_none (lv : level) (name : string) : value :=
  match lookup name lv with
  | Some v => of_scalar v
  | None => VNone
  end.

(** lines 102-110, for [level = record.levels[0]] *)
Definition quote (symbol : string) (r : record) (lv : level) : result event :=
  let? ts_event := getattr r "ts_event" in
  let? ts := format_timestamp ts_event in
  let? bid := px_or_none lv "bid_px" in
  let? ask := px_or_none lv "ask_px" in
  Ok [("type", VStr "quote");
      ("ts", VStr ts);
      ("bid", bid);
      ("ask", ask);
      ("bid_size", sz_or_none lv "bid_sz");
      ("ask_size", sz_or_none lv "ask_sz");
      ("symbol", VStr symbol)].

(** lines 113-116 *)
Definition error_notice (r : record) : event :=
  [("type", VStr "error");
   ("message", str_attr_or (fields r) "err" (VStr "Unknown error"))].

(** lines 119-123 *)
Definition system_notice (r : record) : event :=
  [("type", VStr "status");
   ("message", VStr "system");
   ("detail", str_attr_or (fields r) "msg" (VStr ""))].

(** The body of the inner [try] (lines 73-125): one record is dispatched
    on its type name; a record of no known type does nothing. *)
Definition process_record (symbol : string) (r : record) : M unit :=
  record_type <- stmt (ret (rtype r)) ;;
  stmt
    (if String.eqb record_type "TradeMsg" then
       data <- lift (live_trade symbol r) ;; emit data
     else if String.eqb record_type "OHLCVMsg" then
       data <- lift (ohlcv symbol r) ;; emit data
     else if String.eqb record_type "MBP1Msg" then
       lvs <- lift (get_levels r) ;;
       match lvs with
       | [] => ret tt
       | lv :: _ =>
           level <- stmt (ret lv) ;;
           stmt (data <- lift (quote symbol r level) ;; emit data)
       end
     else if String.eqb record_type "ErrorMsg" then
       emit (error_notice r)
     else if String.eqb record_type "SystemMsg" then
       emit (system_notice r)
     else ret tt).

Definition record_error (e : exn) : event :=
  [("type", VStr "error");
   ("message", VStr ("Record processing error: " ++ str_exn e))].

(** [for record in client: try: ... except Exception as e: ...]
    (lines 71-128).  The boundary at the head of each round is where the
    loop waits for the next record. *)
Fixpoint live_loop (symbol : string) (rs : list record) (fin : option exn) : M unit :=
  match rs with
  | [] =>
      stmt (match fin with
            | None => ret tt
            | Some x => raise x
            end)
  | r :: rs' =>
      stmt (try_except Exception
              (process_record symbol r)
              (fun e => stmt (emit (record_error e)))) ;;
      live_loop symbol rs' fin
  end.

Definition fatal_error (e : exn) : event :=
  [("type", VStr "error"); ("message", VStr (str_exn e))].

Definition status (message : string) : event :=
  [("type", VStr "status"); ("message", VStr message)].

Definition status_for (message symbol schema : string) : event :=
  [("type", VStr "status"); ("message", VStr message);
   ("symbol", VStr symbol); ("schema", VStr schema)].

(** ** [run_live_stream] (source lines 47-134) *)

(** The body of the outer [try] (lines 58-130). *)
Definition live_session (p : provider)
    (api_key symbol schema dataset : string) : M unit :=
  stmt (provider_call (Live api_key) (live_answer p)) ;;
  stmt (provider_call (Subscribe dataset schema "parent" symbol)
          (subscribe_answer p)) ;;
  stmt (emit (status_for "connected" symbol schema)) ;;
  stmt (emit (status "streaming")) ;;
  live_loop symbol (feed p) (feed_end p) ;;
  stmt (emit (status "disconnected")).

(** [except Exception as e: emit(...); sys.exit(1)] (lines 132-134 and
    195-197) *)
Definition fatal (e : exn) : M unit :=
  stmt (emit (fatal_error e)) ;;
  stmt (sys_exit 1).

Definition run_live_stream (p : provider)
    (api_key symbol schema dataset : string) : M unit :=
  import_or_exit p ;;
  stmt (emit (status_for "connecting" symbol schema)) ;;
  stmt (try_except Exception
          (live_session p api_key symbol schema dataset)
          fatal).

(** ** [run_historical] (source lines 136-197) *)

(** [collect_record] (lines 165-185); the list [records] of the enclosing
    function, which the closure appends to, is passed in and out. *)
Definition collect_record (symbol : string) (r : record)
    (records : list event) : result (list event) :=
  let record_type := rtype r in
  if String.eqb record_type "OHLCVMsg" then
    let? data := ohlcv symbol r in
    Ok (records ++ [data])
  else if String.eqb record_type "TradeMsg" then
    let? ts_event := getattr r "ts_event" in
    let? ts := format_timestamp ts_event in
    let? price := getattr r "price" in
    let? price' := truediv price f1e9 in
    let? size := getattr r "size" in
    Ok (records ++ [[("type", VStr "trade");
                     ("ts", VStr ts);
                     ("price", VFloat price');
                     ("size", of_scalar size);
                     ("symbol", VStr symbol)]])
  else Ok records.

(** [data.replay(callback)]: the callback is called once per record, in
    order; what it raises, and the fault the replay itself may end with,
    propagate to the caller. *)
Fixpoint replay (rs : list record) (fin : option exn)
    (callback : record -> list event -> result (list event))
    (records : list event) : result (list event) :=
  match rs with
  | [] =>
      match fin with
      | None => Ok records
      | Some x => Err x
      end
  | r :: rs' =>
      let? records' := callback r records in
      replay rs' fin callback records'
  end.

(** The truth value of an optional command-line string. *)
Definition truthy (o : option string) : bool :=
  match o with
  | None | Some EmptyString => false
  | Some _ => true
  end.

Definition of_option (o : option string) : value :=
  match o with
  | Some s => VStr s
  | None => VNone
  end.

(** lines 149-159 *)
Definition build_kwargs (symbol schema dataset : string)
    (start end_ limit : option string) : result (list (string * value)) :=
  let kwargs := [("dataset", VStr dataset);
                 ("schema", VStr schema);
                 ("stype_in", VStr "parent");
                 ("symbols", VStr symbol);
                 ("start", of_option start)] in
  let kwargs := if truthy end_ then kwargs ++ [("end", of_option end_)] else kwargs in
  if truthy limit then
    let? n := py_int (match limit with Some l => l | None => "" end) in
    Ok (kwargs ++ [("limit", VInt n)])
  else Ok kwargs.

Definition historical_event (records : list event) : event :=
  [("type", VStr "historical");
   ("count", VInt (Z.of_nat (List.length records)));
   ("records", VList (map VDict records))].

(** The body of the [try] (lines 147-193). *)
Definition historical_fetch (p : provider)
    (api_key symbol schema dataset : string)
    (start end_ limit : option string) : M unit :=
  stmt (provider_call (Historical api_key) (historical_answer p)) ;;
  kwargs <- stmt (lift (build_kwargs symbol schema dataset start end_ limit)) ;;
  data <- stmt (provider_call (Get_range kwargs) (get_range_answer p kwargs)) ;;
  records <- stmt (provider_call Replay
                     (replay (fst data) (snd data) (collect_record symbol) [])) ;;
  stmt (emit (historical_event records)).

Definition run_historical (p : provider)
    (api_key symbol schema dataset : string)
    (start end_ limit : option string) : M unit :=
  import_or_exit p ;;
  stmt (emit (status_for "fetching_historical" symbol schema)) ;;
  stmt (try_except Exception
          (historical_fetch p api_key symbol schema dataset start end_ limit)
          fatal).

(** ** The entry point (source lines 199-215) *)
Record args : Type := MkArgs {
  key : string;
  symbol : string;
  schema : string;
  dataset : string;
  mode : string;
  start : option string;
  end_ : option string;
  limit : option string
}.

Definition main (p : provider) (a : args) : M unit :=
  if String.eqb (mode a) "live" then
    run_live_stream p (key a) (symbol a) (schema a) (dataset a)
  else
    run_historical p (key a) (symbol a) (schema a) (dataset a)
      (start a) (end_ a) (limit a).

(** ** Reading a run *)

(** No reader ever going away, no signal pending. *)
Definition quiet : st := MkSt None None false false.

(** The lines of a trace, as the downstream reader sees them. *)
Fixpoint stdout (o : list obs) : list event :=
  match o with
  | [] => []
  | Wrote d :: o' => d :: stdout o'
  | _ :: o' => stdout o'
  end.


Definition is_wrote (x : obs) : bool :=
  match x with
  | Wrote _ => true
  | _ => false
  end.

Definition is_boundary (x : obs) : bool :=
  match x with
  | Boundary => true
  | _ => false
  end.

(** The trace without its statement boundaries: lines and provider calls,
    in the order they happened. *)
Definition visible (o : list obs) : list obs :=
  filter (fun x => negb (is_boundary x)) o.

(** How many steps of a trace are of the kind [P]. *)
Definition count (P : obs -> bool) (o : list obs) : nat :=
  List.length (filter P o).

(** The part of a trace that comes before its [n+1]-th step of kind [P]
    (all of it, when there are no more than [n] of them). *)
Fixpoint upto (P : obs -> bool) (n : nat) (o : list obs) : list obs :=
  match o with
  | [] => []
  | x :: o' =>
      if P x then
        match n with
        | O => []
        | S n' => x :: upto P n' o'
        end
      else x :: upto P n o'
  end.

(** The record mapper of live mode as a function: the event that
    [process_record] hands to [emit] for a record, none when it emits
    nothing, or the exception it raises. *)
Definition live_event (symbol : string) (r : record) : result (option event) :=
  if String.eqb (rtype r) "TradeMsg" then
    let? data := live_trade symbol r in Ok (Some data)
  else if String.eqb (rtype r) "OHLCVMsg" then
    let? data := ohlcv symbol r in Ok (Some data)
  else if String.eqb (rtype r) "MBP1Msg" then
    let? lvs := get_levels r in
    match lvs with
    | [] => Ok None
    | lv :: _ => let? data := quote symbol r lv in Ok (Some data)
    end
  else if String.eqb (rtype r) "ErrorMsg" then Ok (Some (error_notice r))
  else if String.eqb (rtype r) "SystemMsg" then Ok (Some (system_notice r))
  else Ok None.

(** The lines one round of the live loop leaves on stdout. *)
Definition record_lines (symbol : string) (r : record) : list event :=
  match live_event symbol r with
  | Ok (Some data) => [data]
  | Ok None => []
  | Err x => [record_error x]
  end.

(** Trade and bar records, the two kinds [collect_record] keeps. *)
Definition trade_or_bar (r : record) : bool :=
  (String.eqb (rtype r) "OHLCVMsg" || String.eqb (rtype r) "TradeMsg")%bool.

(** A value within the range of a signed 64-bit fixed-point field. *)
Definition int64 (z : Z) : Prop := - 2 ^ 63 <= z < 2 ^ 63.

(** [z / 1e9] as a float, for an integer that converts. *)
Definition scaled (z : Z) : spec_float := fdiv (float_of_Z z) f1e9.


(** ** Interrupted and undisturbed runs *)

(** Two things can cut a run short: the reader going away (the write that
    finds the pipe broken ends the process) and a signal (the boundary at
    which it is due runs the handler).  Both follow one scheme: the steps
    of kind [P] are counted, the [n+1]-th one does not happen, and the run
    ends there with status 0 after leaving [tail] on the trace.  [arm n]
    is the state in which [n] more such steps go through, [halt] the
    state the run ends in.  [cuts P arm tail halt m] says that [m] obeys
    the scheme, whatever [n]. *)
Definition cuts (P : obs -> bool) (arm : nat -> st) (tail : list obs) (halt : st)
    {A : Type} (m : M A) : Prop :=
  exists r o,
    m quiet = (r, o, quiet) /\
    forall n,
      m (arm n) =
      if (count P o <=? n)%nat then (r, o, arm (n - count P o)%nat)
      else (Exit 0, upto P n o ++ tail, halt).

(** The reader goes away after [k] more lines. *)
Definition reader_leaves (k : nat) : st := MkSt (Some k) None false false.

(** The state a run is left in by the write that found the reader gone. *)
Definition reader_gone : st := MkSt (Some O) None false true.

(** The signal [sg] is due after [n] more statement boundaries. *)
Definition signal_due (sg : signum) (n : nat) : st :=
  MkSt None (Some (At_boundary n, sg)) false false.

(** The signal [sg] is due during the write that follows [n] others. *)
Definition signal_in_write (sg : signum) (n : nat) : st :=
  MkSt None (Some (In_write n, sg)) false false.

Definition cut_by_pipe {A : Type} : M A -> Prop :=
  cuts is_wrote reader_leaves [] reader_gone.

Definition cut_by_signal (sg : signum) {A : Type} : M A -> Prop :=
  cuts is_boundary (signal_due sg) [Wrote shutting_down] quiet.

(** [yields m r v]: with the reader present and no signal, [m] ends with
    outcome [r] after the lines and provider calls [v]. *)
Definition yields {A : Type} (m : M A) (r : outcome A) (v : list obs) : Prop :=
  exists o, m quiet = (r, o, quiet) /\ visible o = v.

(** The line a live session ends with. *)
Definition last_line (fin : option exn) : event :=
  match fin with
  | None => status "disconnected"
  | Some x => fatal_error x
  end.

(** A float that is zero or finite, of sign [s] and below [2 ^ D] in
    absolute value. *)
Definition bounded_float (s : bool) (D : Z) (f : spec_float) : Prop :=
  match f with
  | S754_zero s' => s' = s
  | S754_finite s' m e => s' = s /\ Zdigits2 (Zpos m) + e <= D
  | _ => False
  end.

(** A price field of a level that, when it exists, is a fixed-point
    integer. *)
Definition fixed_point_or_absent (o : option scalar) : Prop :=
  match o with
  | None => True
  | Some (SInt p) => int64 p
  | Some _ => False
  end.

(** ** Sample inputs *)

Definition sample_trade : record :=
  MkRecord "TradeMsg"
    [("ts_event", SInt 1735732800000000000); ("price", SInt 6000250000000);
     ("size", SInt 3); ("action", SStr "T"); ("side", SStr "B")]
    None.

(** A trade record that lacks its price. *)
Definition sample_faulty : record :=
  MkRecord "TradeMsg" [("ts_event", SInt 1735732800000000000); ("size", SInt 3)] None.

Definition sample_bar : record :=
  MkRecord "OHLCVMsg"
    [("ts_event", SInt 1735732800000000000); ("open", SInt 6000000000000);
     ("high", SInt 6001000000000); ("low", SInt 5999000000000);
     ("close", SInt 6000500000000); ("volume", SInt 100)]
    None.

(** A trade record without an action. *)
Definition sample_faulty_free : record :=
  MkRecord "TradeMsg"
    [("ts_event", SInt 1735732800000000000); ("price", SInt 6000250000000);
     ("size", SInt 3); ("side", SStr "B")]
    None.

Definition sample_heartbeat : record := MkRecord "Heartbeat" [] None.

Definition sample_provider (rs : list record) (fin : option exn) : provider :=
  MkProvider true (Ok tt) (Ok tt) rs None (Ok tt) (fun _ => Ok (rs, fin)).

Definition sample_args (m : string) : args :=
  MkArgs "key" "ES.FUT" "trades" "GLBX.MDP3" m (Some "2025-01-01") None None.

(** The fields an event of a trade or of a bar is made from (lines 78-80
    and 89-94; the same in lines 170-175 and 181-183). *)
Definition required_fields (record_type : string) : list string :=
  if String.eqb record_type "TradeMsg" then ["ts_event"; "price"; "size"]
  else if String.eqb record_type "OHLCVMsg" then
    ["ts_event"; "open"; "high"; "low"; "close"; "volume"]
  else [].

(** ** What a run may write *)

(** The value under the key [type], when that is the first key of an
    event and holds a string; the value under [message], when that is
    the second. *)
Definition tag (d : event) : option string :=
  match d with
  | (k, VStr t) :: _ => if String.eqb k "type" then Some t else None
  | _ => None
  end.

Definition message (d : event) : option string :=
  match d with
  | _ :: (k, VStr m) :: _ => if String.eqb k "message" then Some m else None
  | _ => None
  end.


(** The events that the main program hands to [emit]: the handler of
    signals apart, a status event carries one of six messages. *)
Definition own_line (d : event) : bool :=
  match tag d with
  | Some t =>
      if String.eqb t "status" then
        match message d with
        | Some m =>
            existsb (String.eqb m)
              ["connecting"; "connected"; "streaming"; "disconnected";
               "fetching_historical"; "system"]
        | None => false
        end
      else existsb (String.eqb t) ["trade"; "ohlcv"; "quote"; "error"; "historical"]
  | None => false
  end.

(** [keeps I Q m]: started in a state that satisfies [I], the computation
    [m] ends in one that does, and every line it has written satisfies
    [Q]. *)
Definition keeps (I : st -> Prop) (Q : event -> Prop) {A : Type} (m : M A) : Prop :=
  forall s r o s', I s -> m s = (r, o, s') -> I s' /\ Forall Q (stdout o).

(** The states in which no write is in progress and no signal is due at
    a statement boundary. *)
Definition no_boundary_signal (s : st) : Prop :=
  busy s = false /\
  match pending s with
  | Some (At_boundary _, _) => False
  | _ => True
  end.

(** What a run leaves on its trace, and the outcome it ends with. *)
Definition trace_of {A : Type} (x : outcome A * list obs * st) : list obs :=
  snd (fst x).

Definition outcome_of {A : Type} (x : outcome A * list obs * st) : outcome A :=
  fst (fst x).

Definition state_of {A : Type} (x : outcome A * list obs * st) : st := snd x.

(** The status of the process after a run. *)
Definition process_status {A : Type} (x : outcome A * list obs * st) : Z :=
  exit_status (outcome_of x) (state_of x).

(** [leaves_by codes m]: when [m] ends the process by [sys.exit], the
    code is one of [codes]. *)
Definition leaves_by (codes : list Z) {A : Type} (m : M A) : Prop :=
  forall s r o s' c, m s = (r, o, s') -> r = Exit c -> In c codes.

(** * Properties *)

(** ** Traces *)

Lemma count_app (P : obs -> bool) (o1 o2 : list obs) :
  count P (o1 ++ o2) = (count P o1 + count P o2)%nat.
Proof.
  unfold count. rewrite filter_app. apply length_app.
Qed.

Lemma upto_app_le (P : obs -> bool) (o1 o2 : list obs) :
  forall n, (count P o1 <= n)%nat ->
  upto P n (o1 ++ o2) = o1 ++ upto P (n - count P o1) o2.
Proof.
  induction o1 as [|x o1 IH]; intros n Hn.
  - simpl. now rewrite Nat.sub_0_r.
  - unfold count in *. simpl in *. destruct (P x); simpl in *.
    + destruct n as [|n]; [lia|]. simpl. f_equal. apply IH. lia.
    + f_equal. now apply IH.
Qed.

Lemma upto_app_gt (P : obs -> bool) (o1 o2 : list obs) :
  forall n, (n < count P o1)%nat -> upto P n (o1 ++ o2) = upto P n o1.
Proof.
  induction o1 as [|x o1 IH]; intros n Hn.
  - unfold count in Hn. simpl in Hn. lia.
  - unfold count in *. simpl in *. destruct (P x); simpl in *.
    + destruct n as [|n]; [reflexivity|]. f_equal. apply IH. lia.
    + f_equal. now apply IH.
Qed.

Lemma upto_all (P : obs -> bool) (o : list obs) :
  forall n, (count P o <= n)%nat -> upto P n o = o.
Proof.
  intros n Hn. rewrite <- (app_nil_r o) at 1.
  rewrite upto_app_le by assumption. simpl. apply app_nil_r.
Qed.

Lemma stdout_app (o1 o2 : list obs) : stdout (o1 ++ o2) = stdout o1 ++ stdout o2.
Proof.
  induction o1 as [|x o1 IH]; [reflexivity|].
  destruct x; simpl; try assumption. now rewrite IH.
Qed.

Lemma stdout_visible (o : list obs) : stdout (visible o) = stdout o.
Proof.
  induction o as [|x o IH]; [reflexivity|].
  destruct x; simpl; try assumption. now rewrite IH.
Qed.

Lemma visible_app (o1 o2 : list obs) : visible (o1 ++ o2) = visible o1 ++ visible o2.
Proof.
  apply filter_app.
Qed.

Lemma count_wrote_stdout (o : list obs) : count is_wrote o = List.length (stdout o).
Proof.
  unfold count. induction o as [|x o IH]; [reflexivity|].
  destruct x; simpl; try assumption. now rewrite IH.
Qed.

Lemma stdout_upto_wrote (o : list obs) :
  forall k, stdout (upto is_wrote k o) = firstn k (stdout o).
Proof.
  induction o as [|x o IH]; intros k.
  - simpl. now rewrite firstn_nil.
  - destruct x; simpl; try apply IH.
    destruct k; simpl; [reflexivity|]. now rewrite IH.
Qed.

Lemma stdout_map_wrote (l : list event) : stdout (map Wrote l) = l.
Proof.
  induction l as [|d l IH]; simpl; [reflexivity|]. now rewrite IH.
Qed.

(** ** Interruption *)
Section Interruption.

Variable P : obs -> bool.
Variable arm : nat -> st.
Variable tail : list obs.
Variable halt : st.

#[local] Abbreviation cuts := (cuts P arm tail halt).

Hypothesis P_called : forall c, P (Called c) = false.
Hypothesis cuts_checkpoint : cuts checkpoint.
Hypothesis cuts_emit : forall data, cuts (emit data).

Lemma cuts_silent {A : Type} (m : M A) (r : outcome A) (o : list obs) :
  count P o = O -> (forall s, m s = (r, o, s)) -> cuts m.
Proof.
  intros Hc Hm. exists r, o. split; [apply Hm|].
  intros n. rewrite Hc, Hm. simpl. now rewrite Nat.sub_0_r.
Qed.

Lemma cuts_ret {A : Type} (a : A) : cuts (ret a).
Proof. now apply (cuts_silent _ (Done a) []). Qed.

Lemma cuts_raise {A : Type} (x : exn) : cuts (@raise A x).
Proof. now apply (cuts_silent _ (Raise x) []). Qed.

Lemma cuts_sys_exit {A : Type} (c : Z) : cuts (@sys_exit A c).
Proof. now apply (cuts_silent _ (Exit c) []). Qed.

Lemma cuts_lift {A : Type} (r : result A) : cuts (lift r).
Proof. destruct r; [apply cuts_ret | apply cuts_raise]. Qed.

Lemma cuts_provider_call {A : Type} (c : call) (r : result A) :
  cuts (provider_call c r).
Proof.
  destruct r as [a|x].
  - apply (cuts_silent _ (Done a) [Called c]); [|reflexivity].
    unfold count. simpl. now rewrite P_called.
  - apply (cuts_silent _ (Raise x) [Called c]); [|reflexivity].
    unfold count. simpl. now rewrite P_called.
Qed.

Lemma cuts_bind {A B : Type} (m : M A) (k : A -> M B) :
  cuts m -> (forall a, cuts (k a)) -> cuts (bind m k).
Proof.
  intros (r1 & o1 & Hq1 & Ha1) Hk.
  destruct r1 as [a|x|c].
  - destruct (Hk a) as (r2 & o2 & Hq2 & Ha2).
    exists r2, (o1 ++ o2). split.
    + unfold bind. now rewrite Hq1, Hq2.
    + intros n. unfold bind. rewrite Ha1, count_app.
      destruct (count P o1 <=? n)%nat eqn:E1.
      * apply Nat.leb_le in E1. rewrite Ha2.
        destruct (count P o2 <=? n - count P o1)%nat eqn:E2.
        -- apply Nat.leb_le in E2.
           replace (count P o1 + count P o2 <=? n)%nat with true
             by (symmetry; apply Nat.leb_le; lia).
           now rewrite Nat.sub_add_distr.
        -- apply Nat.leb_gt in E2.
           replace (count P o1 + count P o2 <=? n)%nat with false
             by (symmetry; apply Nat.leb_gt; lia).
           now rewrite upto_app_le, app_assoc by assumption.
      * apply Nat.leb_gt in E1.
        replace (count P o1 + count P o2 <=? n)%nat with false
          by (symmetry; apply Nat.leb_gt; lia).
        now rewrite upto_app_gt by assumption.
  - exists (Raise x), o1. split.
    + unfold bind. now rewrite Hq1.
    + intros n. unfold bind. rewrite Ha1.
      now destruct (count P o1 <=? n)%nat.
  - exists (Exit c), o1. split.
    + unfold bind. now rewrite Hq1.
    + intros n. unfold bind. rewrite Ha1.
      now destruct (count P o1 <=? n)%nat.
Qed.

Lemma cuts_try_except {A : Type} (catches : exn -> bool)
    (body : M A) (handler : exn -> M A) :
  cuts body -> (forall x, cuts (handler x)) ->
  cuts (try_except catches body handler).
Proof.
  intros (r1 & o1 & Hq1 & Ha1) Hh.
  destruct r1 as [a|x|c].
  - exists (Done a), o1. split.
    + unfold try_except. now rewrite Hq1.
    + intros n. unfold try_except. rewrite Ha1.
      now destruct (count P o1 <=? n)%nat.
  - destruct (catches x) eqn:Hc.
    + destruct (Hh x) as (r2 & o2 & Hq2 & Ha2).
      exists r2, (o1 ++ o2). split.
      * unfold try_except. now rewrite Hq1, Hc, Hq2.
      * intros n. unfold try_except. rewrite Ha1, count_app.
        destruct (count P o1 <=? n)%nat eqn:E1.
        -- apply Nat.leb_le in E1. rewrite Hc, Ha2.
           destruct (count P o2 <=? n - count P o1)%nat eqn:E2.
           ++ apply Nat.leb_le in E2.
              replace (count P o1 + count P o2 <=? n)%nat with true
                by (symmetry; apply Nat.leb_le; lia).
              now rewrite Nat.sub_add_distr.
           ++ apply Nat.leb_gt in E2.
              replace (count P o1 + count P o2 <=? n)%nat with false
                by (symmetry; apply Nat.leb_gt; lia).
              now rewrite upto_app_le, app_assoc by assumption.
        -- apply Nat.leb_gt in E1.
           replace (count P o1 + count P o2 <=? n)%nat with false
             by (symmetry; apply Nat.leb_gt; lia).
           now rewrite upto_app_gt by assumption.
    + exists (Raise x), o1. split.
      * unfold try_except. now rewrite Hq1, Hc.
      * intros n. unfold try_except. rewrite Ha1.
        destruct (count P o1 <=? n)%nat; [now rewrite Hc | reflexivity].
  - exists (Exit c), o1. split.
    + unfold try_except. now rewrite Hq1.
    + intros n. unfold try_except. rewrite Ha1.
      now destruct (count P o1 <=? n)%nat.
Qed.

Lemma cuts_stmt {A : Type} (m : M A) : cuts m -> cuts (stmt m).
Proof.
  intros Hm. unfold stmt. apply cuts_bind; [apply cuts_checkpoint | intros _; exact Hm].
Qed.

(** The structure of a program is followed down to its primitives. *)
Ltac cuts_step :=
  match goal with
  | |- cuts (stmt _) => apply cuts_stmt
  | |- cuts (bind _ _) => apply cuts_bind; [|intros ?]
  | |- cuts (try_except _ _ _) => apply cuts_try_except; [|intros ?]
  | |- cuts (emit _) => apply cuts_emit
  | |- cuts (ret _) => apply cuts_ret
  | |- cuts (raise _) => apply cuts_raise
  | |- cuts (sys_exit _) => apply cuts_sys_exit
  | |- cuts (lift _) => apply cuts_lift
  | |- cuts (provider_call _ _) => apply cuts_provider_call
  | |- cuts (if ?b then _ else _) => destruct b
  | |- cuts (match ?x with _ => _ end) => destruct x
  end.

Lemma cuts_fatal (e : exn) : cuts (fatal e).
Proof. unfold fatal. repeat cuts_step. Qed.

Lemma cuts_import_or_exit (p : provider) : cuts (import_or_exit p).
Proof. unfold import_or_exit, import_databento. repeat cuts_step. Qed.

Lemma cuts_process_record (symbol : string) (r : record) :
  cuts (process_record symbol r).
Proof. unfold process_record. repeat cuts_step. Qed.

Lemma cuts_live_loop (symbol : string) (fin : option exn) (rs : list record) :
  cuts (live_loop symbol rs fin).
Proof.
  induction rs as [|r rs IH]; simpl.
  - repeat cuts_step.
  - apply cuts_bind; [|intros _; exact IH].
    apply cuts_stmt, cuts_try_except; [apply cuts_process_record|].
    intros x. repeat cuts_step.
Qed.

Lemma cuts_run_live_stream (p : provider) (api_key symbol schema dataset : string) :
  cuts (run_live_stream p api_key symbol schema dataset).
Proof.
  unfold run_live_stream.
  apply cuts_bind; [apply cuts_import_or_exit | intros _].
  apply cuts_bind; [repeat cuts_step | intros _].
  apply cuts_stmt, cuts_try_except; [|apply cuts_fatal].
  unfold live_session.
  do 4 (apply cuts_bind; [repeat cuts_step | intros _]).
  apply cuts_bind; [apply cuts_live_loop | intros _].
  repeat cuts_step.
Qed.

Lemma cuts_run_historical (p : provider) (api_key symbol schema dataset : string)
    (start end_ limit : option string) :
  cuts (run_historical p api_key symbol schema dataset start end_ limit).
Proof.
  unfold run_historical.
  apply cuts_bind; [apply cuts_import_or_exit | intros _].
  apply cuts_bind; [repeat cuts_step | intros _].
  apply cuts_stmt, cuts_try_except; [|apply cuts_fatal].
  unfold historical_fetch. repeat cuts_step.
Qed.

Lemma cuts_main (p : provider) (a : args) : cuts (main p a).
Proof.
  unfold main. destruct (String.eqb (mode a) "live").
  - apply cuts_run_live_stream.
  - apply cuts_run_historical.
Qed.

End Interruption.

Lemma cut_by_pipe_checkpoint : cut_by_pipe checkpoint.
Proof.
  exists (Done tt), [Boundary]. split; [reflexivity|].
  intros n. simpl. now rewrite Nat.sub_0_r.
Qed.

Lemma cut_by_pipe_emit (data : event) : cut_by_pipe (emit data).
Proof.
  exists (Done tt), [Wrote data]. split; [reflexivity|].
  intros [|n]; [reflexivity|].
  cbn. now rewrite Nat.sub_0_r.
Qed.

Lemma cut_by_signal_checkpoint (sg : signum) : cut_by_signal sg checkpoint.
Proof.
  exists (Done tt), [Boundary]. split; [reflexivity|].
  intros [|n]; [reflexivity|].
  cbn. now rewrite Nat.sub_0_r.
Qed.

Lemma cut_by_signal_emit (sg : signum) (data : event) : cut_by_signal sg (emit data).
Proof.
  exists (Done tt), [Wrote data]. split; [reflexivity|].
  intros n. cbn. now rewrite Nat.sub_0_r.
Qed.

Lemma cut_by_pipe_main (p : provider) (a : args) : cut_by_pipe (main p a).
Proof.
  apply cuts_main;
    [reflexivity | apply cut_by_pipe_checkpoint | apply cut_by_pipe_emit].
Qed.

Lemma cut_by_signal_run_live_stream (sg : signum) (p : provider)
    (api_key symbol schema dataset : string) :
  cut_by_signal sg (run_live_stream p api_key symbol schema dataset).
Proof.
  apply cuts_run_live_stream;
    [reflexivity | apply cut_by_signal_checkpoint | apply cut_by_signal_emit].
Qed.

Lemma yields_fun {A : Type} (m : M A) (r r' : outcome A) (v v' : list obs) :
  yields m r v -> yields m r' v' -> r = r' /\ v = v'.
Proof.
  intros (o & H & Hv) (o' & H' & Hv'). rewrite H in H'.
  injection H' as -> ->. now subst.
Qed.

Lemma yields_ret {A : Type} (a : A) : yields (ret a) (Done a) [].
Proof. now exists []. Qed.

Lemma yields_raise {A : Type} (x : exn) : yields (@raise A x) (Raise x) [].
Proof. now exists []. Qed.

Lemma yields_sys_exit {A : Type} (c : Z) : yields (@sys_exit A c) (Exit c) [].
Proof. now exists []. Qed.

Lemma yields_lift {A : Type} (r : result A) :
  yields (lift r) (match r with Ok a => Done a | Err x => Raise x end) [].
Proof. destruct r; now exists []. Qed.

Lemma yields_provider_call {A : Type} (c : call) (r : result A) :
  yields (provider_call c r)
    (match r with Ok a => Done a | Err x => Raise x end) [Called c].
Proof. destruct r; now exists [Called c]. Qed.

Lemma yields_checkpoint : yields checkpoint (Done tt) [].
Proof. now exists [Boundary]. Qed.

Lemma yields_emit (data : event) : yields (emit data) (Done tt) [Wrote data].
Proof. now exists [Wrote data]. Qed.

Lemma yields_bind {A B : Type} (m : M A) (k : A -> M B)
    (a : A) (r : outcome B) (v1 v2 : list obs) :
  yields m (Done a) v1 -> yields (k a) r v2 -> yields (bind m k) r (v1 ++ v2).
Proof.
  intros (o1 & H1 & <-) (o2 & H2 & <-). exists (o1 ++ o2). split.
  - unfold bind. now rewrite H1, H2.
  - apply visible_app.
Qed.

Lemma yields_bind_raise {A B : Type} (m : M A) (k : A -> M B)
    (x : exn) (v : list obs) :
  yields m (Raise x) v -> yields (bind m k) (Raise x) v.
Proof.
  intros (o & H & <-). exists o. split; [|reflexivity].
  unfold bind. now rewrite H.
Qed.

Lemma yields_bind_exit {A B : Type} (m : M A) (k : A -> M B)
    (c : Z) (v : list obs) :
  yields m (Exit c) v -> yields (bind m k) (Exit c) v.
Proof.
  intros (o & H & <-). exists o. split; [|reflexivity].
  unfold bind. now rewrite H.
Qed.

Lemma yields_try_done {A : Type} (catches : exn -> bool) (body : M A)
    (handler : exn -> M A) (a : A) (v : list obs) :
  yields body (Done a) v -> yields (try_except catches body handler) (Done a) v.
Proof.
  intros (o & H & <-). exists o. split; [|reflexivity].
  unfold try_except. now rewrite H.
Qed.

Lemma yields_try_exit {A : Type} (catches : exn -> bool) (body : M A)
    (handler : exn -> M A) (c : Z) (v : list obs) :
  yields body (Exit c) v -> yields (try_except catches body handler) (Exit c) v.
Proof.
  intros (o & H & <-). exists o. split; [|reflexivity].
  unfold try_except. now rewrite H.
Qed.

Lemma yields_try_caught {A : Type} (catches : exn -> bool) (body : M A)
    (handler : exn -> M A) (x : exn) (r : outcome A) (v1 v2 : list obs) :
  yields body (Raise x) v1 -> catches x = true -> yields (handler x) r v2 ->
  yields (try_except catches body handler) r (v1 ++ v2).
Proof.
  intros (o1 & H1 & <-) Hc (o2 & H2 & <-). exists (o1 ++ o2). split.
  - unfold try_except. now rewrite H1, Hc, H2.
  - apply visible_app.
Qed.

Lemma yields_stmt {A : Type} (m : M A) (r : outcome A) (v : list obs) :
  yields m r v -> yields (stmt m) r v.
Proof.
  intros H. unfold stmt.
  change v with ([] ++ v). eapply yields_bind; [apply yields_checkpoint | exact H].
Qed.

Lemma yields_as {A : Type} (m : M A) (r r' : outcome A) (v v' : list obs) :
  yields m r v -> r = r' -> v = v' -> yields m r' v'.
Proof. now intros H <- <-. Qed.

(** One record: what [process_record] does is what [live_event] says. *)
Lemma process_record_yields (symbol : string) (r : record) :
  yields (process_record symbol r)
    (match live_event symbol r with Ok _ => Done tt | Err x => Raise x end)
    (match live_event symbol r with Ok (Some data) => [Wrote data] | _ => [] end).
Proof.
  unfold process_record, live_event.
  change (@nil obs) with ([] ++ @nil obs) at 1.
  eapply yields_as.
  - eapply yields_bind; [apply yields_stmt, yields_ret|].
    apply yields_stmt.
    instantiate (1 := match live_event symbol r with
                      | Ok (Some data) => [Wrote data] | _ => [] end).
    instantiate (1 := match live_event symbol r with
                      | Ok _ => Done tt | Err x => Raise x end).
    unfold live_event.
    destruct (String.eqb (rtype r) "TradeMsg").
    { destruct (live_trade symbol r) as [d|x]; simpl.
      - change [Wrote d] with ([] ++ [Wrote d]).
        eapply yields_bind; [apply (yields_lift (Ok d)) | apply yields_emit].
      - apply yields_bind_raise, (yields_lift (Err x)). }
    destruct (String.eqb (rtype r) "OHLCVMsg").
    { destruct (ohlcv symbol r) as [d|x]; simpl.
      - change [Wrote d] with ([] ++ [Wrote d]).
        eapply yields_bind; [apply (yields_lift (Ok d)) | apply yields_emit].
      - apply yields_bind_raise, (yields_lift (Err x)). }
    destruct (String.eqb (rtype r) "MBP1Msg").
    { destruct (get_levels r) as [[|lv lvs]|x]; simpl.
      - change (@nil obs) with ([] ++ @nil obs).
        eapply yields_bind; [apply (yields_lift (Ok [])) | apply yields_ret].
      - destruct (quote symbol r lv) as [d|x] eqn:Q; simpl.
        + change [Wrote d] with ([] ++ [] ++ [] ++ [Wrote d]).
          eapply yields_bind; [apply (yields_lift (Ok (lv :: lvs)))|].
          eapply yields_bind; [apply yields_stmt, yields_ret|].
          apply yields_stmt. rewrite Q.
          eapply yields_bind; [apply (yields_lift (Ok d)) | apply yields_emit].
        + change (@nil obs) with ([] ++ [] ++ @nil obs).
          eapply yields_bind; [apply (yields_lift (Ok (lv :: lvs)))|].
          eapply yields_bind; [apply yields_stmt, yields_ret|].
          apply yields_stmt. rewrite Q.
          apply yields_bind_raise, (yields_lift (Err x)).
      - apply yields_bind_raise, (yields_lift (Err x)). }
    destruct (String.eqb (rtype r) "ErrorMsg"); [apply yields_emit|].
    destruct (String.eqb (rtype r) "SystemMsg"); [apply yields_emit|].
    apply yields_ret.
  - reflexivity.
  - reflexivity.
Qed.

(** One round of the loop never raises. *)
Lemma round_yields (symbol : string) (r : record) :
  yields (stmt (try_except Exception
                  (process_record symbol r)
                  (fun e => stmt (emit (record_error e)))))
    (Done tt) (map Wrote (record_lines symbol r)).
Proof.
  apply yields_stmt. pose proof (process_record_yields symbol r) as H.
  unfold record_lines.
  destruct (live_event symbol r) as [[d|]|x]; simpl.
  - now apply yields_try_done.
  - now apply yields_try_done.
  - change [Wrote (record_error x)] with ([] ++ [Wrote (record_error x)]).
    eapply yields_try_caught; [exact H | reflexivity |].
    apply yields_stmt, yields_emit.
Qed.

Lemma live_loop_yields (symbol : string) (fin : option exn) (rs : list record) :
  yields (live_loop symbol rs fin)
    (match fin with None => Done tt | Some x => Raise x end)
    (map Wrote (flat_map (record_lines symbol) rs)).
Proof.
  induction rs as [|r rs IH]; simpl.
  - apply yields_stmt. destruct fin; [apply yields_raise | apply yields_ret].
  - rewrite map_app. eapply yields_bind; [apply round_yields | exact IH].
Qed.

Lemma import_or_exit_yields (p : provider) :
  installed p = true ->
  yields (import_or_exit p) (Done tt) [Called Import_databento].
Proof.
  intros Hi. unfold import_or_exit, import_databento. rewrite Hi.
  apply yields_stmt, yields_try_done, yields_stmt.
  apply (yields_provider_call Import_databento (Ok tt)).
Qed.

Lemma fatal_yields (e : exn) : yields (fatal e) (Exit 1) [Wrote (fatal_error e)].
Proof.
  unfold fatal. change [Wrote (fatal_error e)] with ([Wrote (fatal_error e)] ++ []).
  eapply yields_bind; [apply yields_stmt, yields_emit|].
  apply yields_stmt, yields_sys_exit.
Qed.

(** A session whose subscription is accepted, to its end. *)
Lemma run_live_stream_yields (p : provider) (api_key symbol schema dataset : string) :
  installed p = true -> live_answer p = Ok tt -> subscribe_answer p = Ok tt ->
  yields (run_live_stream p api_key symbol schema dataset)
    (match feed_end p with None => Done tt | Some _ => Exit 1 end)
    ([Called Import_databento;
      Wrote (status_for "connecting" symbol schema);
      Called (Live api_key);
      Called (Subscribe dataset schema "parent" symbol);
      Wrote (status_for "connected" symbol schema);
      Wrote (status "streaming")]
     ++ map Wrote (flat_map (record_lines symbol) (feed p))
     ++ [Wrote (last_line (feed_end p))]).
Proof.
  intros Hi Hl Hs. unfold run_live_stream.
  eapply yields_as.
  - eapply yields_bind; [now apply import_or_exit_yields|].
    eapply yields_bind; [apply yields_stmt, yields_emit|].
    apply yields_stmt.
    instantiate (1 := [Called (Live api_key);
                       Called (Subscribe dataset schema "parent" symbol);
                       Wrote (status_for "connected" symbol schema);
                       Wrote (status "streaming")]
                      ++ map Wrote (flat_map (record_lines symbol) (feed p))
                      ++ [Wrote (last_line (feed_end p))]).
    instantiate (1 := match feed_end p with None => Done tt | Some _ => Exit 1 end).
    pose proof (live_loop_yields symbol (feed_end p) (feed p)) as Hloop.
    assert (Hpre : forall r v,
               yields (live_loop symbol (feed p) (feed_end p) ;;
                       stmt (emit (status "disconnected"))) r v ->
               yields (live_session p api_key symbol schema dataset) r
                 ([Called (Live api_key);
                   Called (Subscribe dataset schema "parent" symbol);
                   Wrote (status_for "connected" symbol schema);
                   Wrote (status "streaming")] ++ v)).
    { intros r v H. unfold live_session. rewrite Hl, Hs.
      change ([Called (Live api_key);
               Called (Subscribe dataset schema "parent" symbol);
               Wrote (status_for "connected" symbol schema);
               Wrote (status "streaming")] ++ v)
        with ([Called (Live api_key)]
              ++ [Called (Subscribe dataset schema "parent" symbol)]
              ++ [Wrote (status_for "connected" symbol schema)]
              ++ [Wrote (status "streaming")] ++ v).
      eapply yields_bind;
        [apply yields_stmt, (yields_provider_call (Live api_key) (Ok tt))|].
      eapply yields_bind;
        [apply yields_stmt,
           (yields_provider_call (Subscribe dataset schema "parent" symbol) (Ok tt))|].
      eapply yields_bind; [apply yields_stmt, yields_emit|].
      eapply yields_bind; [apply yields_stmt, yields_emit|].
      exact H. }
    destruct (feed_end p) as [x|]; simpl last_line.
    + rewrite app_assoc.
      eapply yields_try_caught; [|reflexivity|apply fatal_yields].
      apply Hpre. now apply yields_bind_raise.
    + apply yields_try_done, Hpre.
      eapply yields_bind; [exact Hloop|]. apply yields_stmt, yields_emit.
  - reflexivity.
  - reflexivity.
Qed.

(** ** The live session *)

(** C1. In live mode a fault raised while one record is processed neither
    ends the session nor drops the records after it: whatever comes before
    and after the faulting record in the feed, the output is the header,
    the lines of the records before, one error line carrying the
    description of the fault, the lines of the records after, and the
    closing line; the session ends normally. *)
Theorem live_record_fault_is_isolated
    (p : provider) (api_key symbol schema dataset : string)
    (before after : list record) (faulting : record) (x : exn) :
  installed p = true -> live_answer p = Ok tt -> subscribe_answer p = Ok tt ->
  feed p = before ++ faulting :: after -> feed_end p = None ->
  live_event symbol faulting = Err x ->
  exists o,
    run_live_stream p api_key symbol schema dataset quiet = (Done tt, o, quiet) /\
    stdout o =
      [status_for "connecting" symbol schema;
       status_for "connected" symbol schema;
       status "streaming"]
      ++ flat_map (record_lines symbol) before
      ++ [[("type", VStr "error");
           ("message", VStr ("Record processing error: " ++ str_exn x))]]
      ++ flat_map (record_lines symbol) after
      ++ [status "disconnected"].
Proof.
  intros Hi Hl Hs Hfeed Hend Hx.
  destruct (run_live_stream_yields p api_key symbol schema dataset Hi Hl Hs)
    as (o & Hrun & Hv).
  rewrite Hend in Hrun, Hv. exists o. split; [exact Hrun|].
  rewrite <- stdout_visible, Hv, Hfeed, flat_map_app. simpl.
  rewrite stdout_app, stdout_map_wrote. simpl.
  unfold record_lines at 2. rewrite Hx. simpl.
  now rewrite <- app_assoc.
Qed.

Lemma live_record_fault_is_isolated_witness :
  exists o,
    run_live_stream (sample_provider [sample_trade; sample_faulty; sample_trade] None)
      "key" "ES.FUT" "trades" "GLBX.MDP3" quiet = (Done tt, o, quiet) /\
    stdout o =
      [status_for "connecting" "ES.FUT" "trades";
       status_for "connected" "ES.FUT" "trades";
       status "streaming";
       [("type", VStr "trade"); ("ts", VStr "2025-01-01T12:00:00+00:00");
        ("price", VFloat (S754_finite false 6597344644562944 (-40)));
        ("size", VInt 3); ("symbol", VStr "ES.FUT");
        ("action", VStr "T"); ("side", VStr "B")];
       [("type", VStr "error");
        ("message",
         VStr "Record processing error: 'TradeMsg' object has no attribute 'price'")];
       [("type", VStr "trade"); ("ts", VStr "2025-01-01T12:00:00+00:00");
        ("price", VFloat (S754_finite false 6597344644562944 (-40)));
        ("size", VInt 3); ("symbol", VStr "ES.FUT");
        ("action", VStr "T"); ("side", VStr "B")];
       status "disconnected"].
Proof.
  destruct (live_record_fault_is_isolated
              (sample_provider [sample_trade; sample_faulty; sample_trade] None)
              "key" "ES.FUT" "trades" "GLBX.MDP3"
              [sample_trade] [sample_trade] sample_faulty
              (no_attribute "TradeMsg" "price")
              eq_refl eq_refl eq_refl eq_refl eq_refl eq_refl)
    as (o & Hrun & Hout).
  exists o. split; [exact Hrun|]. rewrite Hout. vm_compute. reflexivity.
Defined.

(** C9. On the success path of live mode the "connecting" status, with
    the symbol and the schema, is written before the client is created
    and the subscription opened; once the subscription is accepted,
    "connected" and then "streaming" are written as two separate lines,
    and every line that comes from a record comes after them. *)
Theorem live_status_lines_in_order
    (p : provider) (api_key symbol schema dataset : string) :
  installed p = true -> live_answer p = Ok tt -> subscribe_answer p = Ok tt ->
  exists r o,
    run_live_stream p api_key symbol schema dataset quiet = (r, o, quiet) /\
    visible o =
      [Called Import_databento;
       Wrote [("type", VStr "status"); ("message", VStr "connecting");
              ("symbol", VStr symbol); ("schema", VStr schema)];
       Called (Live api_key);
       Called (Subscribe dataset schema "parent" symbol);
       Wrote [("type", VStr "status"); ("message", VStr "connected");
              ("symbol", VStr symbol); ("schema", VStr schema)];
       Wrote [("type", VStr "status"); ("message", VStr "streaming")]]
      ++ map Wrote (flat_map (record_lines symbol) (feed p))
      ++ [Wrote (last_line (feed_end p))].
Proof.
  intros Hi Hl Hs.
  destruct (run_live_stream_yields p api_key symbol schema dataset Hi Hl Hs)
    as (o & Hrun & Hv).
  eexists _, o. split; [exact Hrun | exact Hv].
Qed.

Lemma live_status_lines_in_order_witness :
  exists r o,
    run_live_stream (sample_provider [sample_trade] None)
      "key" "ES.FUT" "trades" "GLBX.MDP3" quiet = (r, o, quiet) /\
    visible o =
      [Called Import_databento;
       Wrote (status_for "connecting" "ES.FUT" "trades");
       Called (Live "key");
       Called (Subscribe "GLBX.MDP3" "trades" "parent" "ES.FUT");
       Wrote (status_for "connected" "ES.FUT" "trades");
       Wrote (status "streaming")]
      ++ map Wrote (flat_map (record_lines "ES.FUT") [sample_trade])
      ++ [Wrote (status "disconnected")].
Proof.
  destruct (live_status_lines_in_order (sample_provider [sample_trade] None)
              "key" "ES.FUT" "trades" "GLBX.MDP3" eq_refl eq_refl eq_refl)
    as (r & o & Hrun & Hv).
  exists r, o. split; [exact Hrun | exact Hv].
Defined.

(** ** The reader going away, and signals *)

(** A write that finds the reader gone ends [emit] with [sys.exit(0)],
    and leaves the line in the buffer. *)
Lemma emit_on_broken_pipe (data : event) (s : st) :
  pipe s = Some O -> busy s = false ->
  emit data s = (Exit 0, [], MkSt (pipe s) (pending s) (busy s) true).
Proof.
  intros Hp Hb. unfold emit, emit_over, try_except, print_json, write_and_flush.
  now rewrite Hb, Hp.
Qed.

(** In either mode, whichever write finds the reader gone, the run ends
    there, by [sys.exit(0)] and with no line added: the per-record handler
    of the live loop does not intercept the exit.  The line that could not
    be written is still in the buffer, and that makes the status of the
    process 120. *)
Lemma broken_pipe_cuts_run
    (p : provider) (a : args) (k : nat)
    (r0 : outcome unit) (o0 : list obs) (s0 : st) :
  main p a quiet = (r0, o0, s0) ->
  (k < List.length (stdout o0))%nat ->
  exists o,
    main p a (reader_leaves k) = (Exit 0, o, reader_gone) /\
    o = upto is_wrote k o0 /\
    stdout o = firstn k (stdout o0) /\
    exit_status (@Exit unit 0) reader_gone = 120.
Proof.
  intros Hq Hk.
  destruct (cut_by_pipe_main p a) as (r & o & Hq' & Hcut).
  rewrite Hq in Hq'. injection Hq' as -> -> ->.
  exists (upto is_wrote k o). specialize (Hcut k).
  rewrite count_wrote_stdout in Hcut.
  replace (List.length (stdout o) <=? k)%nat with false in Hcut
    by (symmetry; apply Nat.leb_gt; exact Hk).
  rewrite app_nil_r in Hcut.
  split; [exact Hcut|]. split; [reflexivity|].
  split; [apply stdout_upto_wrote | reflexivity].
Qed.

(** C6, where the code departs from it.  The reader goes away after four
    lines of a live run, so the write of the fifth, made while a record
    is being processed, finds the pipe broken.  As the claim says, the
    run ends at once by [sys.exit(0)], past the per-record handler, and no
    error line is written for the failed write.  But the status the
    process ends with is 120, not 0: the line is still in the buffer of
    [sys.stdout], and the flush the interpreter does on its way out fails
    again. *)
Theorem broken_pipe_exit_status_is_120 :
  exists o s,
    main (sample_provider [sample_trade; sample_faulty; sample_trade] None)
      (sample_args "live") (reader_leaves 4) = (Exit 0, o, s) /\
    stdout o =
      [status_for "connecting" "ES.FUT" "trades";
       status_for "connected" "ES.FUT" "trades";
       status "streaming";
       [("type", VStr "trade"); ("ts", VStr "2025-01-01T12:00:00+00:00");
        ("price", VFloat (S754_finite false 6597344644562944 (-40)));
        ("size", VInt 3); ("symbol", VStr "ES.FUT");
        ("action", VStr "T"); ("side", VStr "B")]] /\
    exit_status (@Exit unit 0) s = 120 /\
    exit_status (@Exit unit 0) s <> 0.
Proof.
  eassert (E : main (sample_provider [sample_trade; sample_faulty; sample_trade] None)
                 (sample_args "live") quiet = _) by (vm_compute; reflexivity).
  destruct (broken_pipe_cuts_run _ _ 4%nat _ _ _ E) as (o & Hrun & _ & Hout & Hst).
  - vm_compute. lia.
  - exists o, reader_gone. split; [exact Hrun|].
    split; [rewrite Hout; vm_compute; reflexivity|].
    split; [exact Hst|]. rewrite Hst. discriminate.
Qed.

(** The handler, run while no write is in progress and with the reader
    present, writes its line and ends the process with status 0. *)
Lemma handle_sigterm_shuts_down (sg : signum) (s : st) :
  pipe s = None -> busy s = false ->
  handle_sigterm sg s = (Exit 0, [Wrote shutting_down], s).
Proof.
  intros Hp Hb.
  unfold handle_sigterm, bind, emit_over, try_except, write_and_flush, sys_exit.
  now rewrite Hb, Hp.
Qed.

(** The handler, run while a write is in progress, writes nothing and
    ends nothing: its own write raises. *)
Lemma handle_sigterm_reentrant (sg : signum) (s : st) :
  busy s = true ->
  handle_sigterm sg s
  = (Raise (MkExn RuntimeError
              "reentrant call inside <_io.BufferedWriter name='<stdout>'>"),
     [], s).
Proof.
  intros Hb.
  unfold handle_sigterm, bind, emit_over, try_except, write_and_flush.
  now rewrite Hb.
Qed.

(** A signal delivered at a statement boundary of a live run, whichever
    boundary it is: the run ends there with status 0, and its trace is
    what it had done up to that boundary followed by the one line
    "shutting_down". *)
Lemma signal_at_boundary_shuts_down
    (sg : signum) (p : provider) (api_key symbol schema dataset : string)
    (n : nat) (r0 : outcome unit) (o0 : list obs) (s0 : st) :
  run_live_stream p api_key symbol schema dataset quiet = (r0, o0, s0) ->
  (n < count is_boundary o0)%nat ->
  exists o,
    run_live_stream p api_key symbol schema dataset (signal_due sg n)
      = (Exit 0, o, quiet) /\
    o = upto is_boundary n o0 ++ [Wrote shutting_down] /\
    stdout o = stdout (upto is_boundary n o0) ++ [shutting_down] /\
    exit_status (@Exit unit 0) quiet = 0.
Proof.
  intros Hq Hn.
  destruct (cut_by_signal_run_live_stream sg p api_key symbol schema dataset)
    as (r & o & Hq' & Hcut).
  rewrite Hq in Hq'. injection Hq' as -> -> ->.
  specialize (Hcut n).
  replace (count is_boundary o <=? n)%nat with false in Hcut
    by (symmetry; apply Nat.leb_gt; exact Hn).
  eexists. split; [exact Hcut|]. split; [reflexivity|].
  split; [now rewrite stdout_app | reflexivity].
Qed.

(** C7, where the code departs from it.  A SIGTERM reaches a live run
    while the line of its first record is being written.  The handler
    runs inside that write; its own write is refused by the buffered
    writer, which is not reentrant, and the [RuntimeError] it raises comes
    out of [emit] in the loop, where the per-record handler takes it for a
    fault of the record.  So no "shutting_down" line is written and the
    process does not end: the stream goes on with an error line and the
    next records, to the end of the feed. *)
Theorem signal_during_write_is_swallowed :
  exists o,
    run_live_stream (sample_provider [sample_trade; sample_trade] None)
      "key" "ES.FUT" "trades" "GLBX.MDP3" (signal_in_write SIGTERM 3)
      = (Done tt, o, quiet) /\
    stdout o =
      [status_for "connecting" "ES.FUT" "trades";
       status_for "connected" "ES.FUT" "trades";
       status "streaming";
       [("type", VStr "trade"); ("ts", VStr "2025-01-01T12:00:00+00:00");
        ("price", VFloat (S754_finite false 6597344644562944 (-40)));
        ("size", VInt 3); ("symbol", VStr "ES.FUT");
        ("action", VStr "T"); ("side", VStr "B")];
       [("type", VStr "error");
        ("message",
         VStr "Record processing error: reentrant call inside <_io.BufferedWriter name='<stdout>'>")];
       [("type", VStr "trade"); ("ts", VStr "2025-01-01T12:00:00+00:00");
        ("price", VFloat (S754_finite false 6597344644562944 (-40)));
        ("size", VInt 3); ("symbol", VStr "ES.FUT");
        ("action", VStr "T"); ("side", VStr "B")];
       status "disconnected"] /\
    ~ In shutting_down (stdout o).
Proof.
  eexists. split; [vm_compute; reflexivity|].
  split; [vm_compute; reflexivity|].
  vm_compute. intros H.
  repeat (destruct H as [H|H]; [discriminate H|]). exact H.
Qed.

(** ** The historical fetch *)




Lemma historical_fetch_yields (p : provider) (api_key symbol schema dataset : string)
    (start end_ limit : option string)
    (kwargs : list (string * value)) (data : list record * option exn)
    (records : list event) :
  historical_answer p = Ok tt ->
  build_kwargs symbol schema dataset start end_ limit = Ok kwargs ->
  get_range_answer p kwargs = Ok data ->
  replay (fst data) (snd data) (collect_record symbol) [] = Ok records ->
  yields (historical_fetch p api_key symbol schema dataset start end_ limit)
    (Done tt)
    [Called (Historical api_key); Called (Get_range kwargs); Called Replay;
     Wrote (historical_event records)].
Proof.
  intros Hh Hk Hg Hr. unfold historical_fetch. rewrite Hh, Hk.
  change [Called (Historical api_key); Called (Get_range kwargs); Called Replay;
          Wrote (historical_event records)]
    with ([Called (Historical api_key)] ++ [] ++ [Called (Get_range kwargs)]
          ++ [Called Replay] ++ [Wrote (historical_event records)]).
  eapply yields_bind;
    [apply yields_stmt, (yields_provider_call (Historical api_key) (Ok tt))|].
  eapply yields_bind; [apply yields_stmt, (yields_lift (Ok kwargs))|].
  rewrite Hg.
  eapply yields_bind;
    [apply yields_stmt, (yields_provider_call (Get_range kwargs) (Ok data))|].
  rewrite Hr.
  eapply yields_bind;
    [apply yields_stmt, (yields_provider_call Replay (Ok records))|].
  apply yields_stmt, yields_emit.
Qed.

(** A fetch that raises has written nothing. *)
Lemma historical_fetch_raises_silently (p : provider)
    (api_key symbol schema dataset : string) (start end_ limit : option string)
    (x : exn) (o : list obs) (s : st) :
  historical_fetch p api_key symbol schema dataset start end_ limit quiet
    = (Raise x, o, s) ->
  s = quiet /\ stdout o = [].
Proof.
  unfold historical_fetch, stmt, bind, checkpoint, provider_call, lift. simpl.
  destruct (historical_answer p) as [[]|x0]; simpl.
  2:{ intros H. injection H as <- <- <-. now split. }
  destruct (build_kwargs symbol schema dataset start end_ limit) as [kw|x0]; simpl.
  2:{ intros H. injection H as <- <- <-. now split. }
  destruct (get_range_answer p kw) as [data|x0]; simpl.
  2:{ intros H. injection H as <- <- <-. now split. }
  destruct (replay (fst data) (snd data) (collect_record symbol) []) as [recs|x0]; simpl.
  2:{ intros H. injection H as <- <- <-. now split. }
  discriminate.
Qed.

Lemma run_historical_wrap (p : provider) (api_key symbol schema dataset : string)
    (start end_ limit : option string) (r : outcome unit) (v : list obs) :
  installed p = true ->
  yields (try_except Exception
            (historical_fetch p api_key symbol schema dataset start end_ limit)
            fatal) r v ->
  yields (run_historical p api_key symbol schema dataset start end_ limit) r
    ([Called Import_databento; Wrote (status_for "fetching_historical" symbol schema)]
     ++ v).
Proof.
  intros Hi H. unfold run_historical.
  change ([Called Import_databento;
           Wrote (status_for "fetching_historical" symbol schema)] ++ v)
    with ([Called Import_databento]
          ++ [Wrote (status_for "fetching_historical" symbol schema)] ++ v).
  eapply yields_bind; [now apply import_or_exit_yields|].
  eapply yields_bind; [apply yields_stmt, yields_emit|].
  apply yields_stmt, H.
Qed.



(** C8. In historical mode a fault raised at any stage of the fetch (the
    client, the arguments, the range query, the replay or the mapping of
    a record inside it) leaves the status line followed by exactly one
    error line and ends the process by [sys.exit(1)], with status 1; no
    "historical" line is written: what had been collected before the
    fault is dropped. *)
Theorem historical_fault_discards_partial_results
    (p : provider) (api_key symbol schema dataset : string)
    (start end_ limit : option string) (x : exn) (o1 : list obs) (s1 : st) :
  installed p = true ->
  historical_fetch p api_key symbol schema dataset start end_ limit quiet
    = (Raise x, o1, s1) ->
  exists o,
    run_historical p api_key symbol schema dataset start end_ limit quiet
      = (Exit 1, o, quiet) /\
    stdout o =
      [status_for "fetching_historical" symbol schema;
       [("type", VStr "error"); ("message", VStr (str_exn x))]] /\
    exit_status (@Exit unit 1) quiet = 1.
Proof.
  intros Hi Hf.
  destruct (historical_fetch_raises_silently _ _ _ _ _ _ _ _ _ _ _ Hf) as [-> Hs].
  assert (Hy : yields (historical_fetch p api_key symbol schema dataset
                         start end_ limit) (Raise x) (visible o1))
    by (now exists o1).
  destruct (run_historical_wrap p api_key symbol schema dataset start end_ limit
              (Exit 1) _ Hi
              (yields_try_caught Exception _ fatal x (Exit 1) _ _ Hy eq_refl
                 (fatal_yields x)))
    as (o & Hrun & Hv).
  exists o. split; [exact Hrun|]. split; [|reflexivity].
  rewrite <- stdout_visible, Hv. simpl.
  now rewrite stdout_app, stdout_visible, Hs.
Qed.

Lemma historical_fault_discards_partial_results_witness :
  exists o,
    run_historical
      (sample_provider [sample_trade; sample_bar; sample_faulty; sample_trade] None)
      "key" "ES.FUT" "trades" "GLBX.MDP3" (Some "2025-01-01") None None quiet
      = (Exit 1, o, quiet) /\
    stdout o =
      [status_for "fetching_historical" "ES.FUT" "trades";
       [("type", VStr "error");
        ("message", VStr "'TradeMsg' object has no attribute 'price'")]].
Proof.
  eassert (E : historical_fetch
                 (sample_provider [sample_trade; sample_bar; sample_faulty; sample_trade]
                    None)
                 "key" "ES.FUT" "trades" "GLBX.MDP3" (Some "2025-01-01") None None quiet
               = (Raise (no_attribute "TradeMsg" "price"), _, _))
    by (vm_compute; reflexivity).
  destruct (historical_fault_discards_partial_results
              (sample_provider [sample_trade; sample_bar; sample_faulty; sample_trade]
                 None)
              _ _ _ _ _ _ _ _ _ _ eq_refl E)
    as (o & Hrun & Hout & _).
  exists o. split; [exact Hrun | exact Hout].
Defined.

(** ** Magnitude of floats *)

Lemma digits2_pos_size (p : positive) : digits2_pos p = Pos.size p.
Proof.
  induction p as [p IH|p IH|]; simpl; now rewrite ?IH.
Qed.

Lemma Zdigits2_log2 (m : Z) : 0 < m -> Zdigits2 m = Z.log2 m + 1.
Proof.
  destruct m as [|p|p]; try lia. intros _.
  destruct p as [p|p|]; simpl; rewrite ?digits2_pos_size; lia.
Qed.

Lemma Zdigits2_nonneg (m : Z) : 0 <= Zdigits2 m.
Proof.
  destruct m; simpl; lia.
Qed.

Lemma Zdigits2_div_pow2 (m k : Z) :
  0 <= m -> 0 <= k -> Zdigits2 (m / 2 ^ k) <= Z.max 0 (Zdigits2 m - k).
Proof.
  intros Hm Hk.
  assert (Hq : 0 <= m / 2 ^ k) by (apply Z.div_pos; lia).
  destruct (Z.eq_dec (m / 2 ^ k) 0) as [->|Hne]; [simpl; lia|].
  assert (Hm' : 0 < m).
  { destruct (Z.eq_dec m 0) as [->|]; [|lia]. now rewrite Z.div_0_l in Hne by lia. }
  rewrite !Zdigits2_log2 by lia.
  rewrite <- Z.shiftr_div_pow2 in * by assumption.
  rewrite Z.log2_shiftr by assumption.
  destruct (Z.lt_ge_cases (Z.log2 m) k) as [Hlt|Hge]; [|lia].
  now rewrite Z.shiftr_eq_0 in Hne by lia.
Qed.

Lemma Zdigits2_succ (m : Z) : 0 <= m -> Zdigits2 (m + 1) <= Zdigits2 m + 1.
Proof.
  intros Hm. destruct (Z.eq_dec m 0) as [->|]; [simpl; lia|].
  rewrite !Zdigits2_log2 by lia.
  pose proof (Z.log2_succ_le m). unfold Z.succ in *. lia.
Qed.

Lemma Zdigits2_le_mono (a b : Z) : 0 <= a <= b -> Zdigits2 a <= Zdigits2 b.
Proof.
  intros [Ha Hab]. destruct (Z.eq_dec a 0) as [->|]; [apply Zdigits2_nonneg|].
  rewrite !Zdigits2_log2 by lia.
  pose proof (Z.log2_le_mono a b Hab). lia.
Qed.

Lemma Zdigits2_bound (m k : Z) : 0 <= m < 2 ^ k -> 0 <= k -> Zdigits2 m <= k.
Proof.
  intros [Hm Hlt] Hk. destruct (Z.eq_dec m 0) as [->|]; [simpl; lia|].
  rewrite Zdigits2_log2 by lia.
  apply Z.log2_lt_pow2 in Hlt; lia.
Qed.

Lemma Zdigits2_gt (m : Z) : 0 <= m -> m < 2 ^ Zdigits2 m.
Proof.
  intros Hm. destruct (Z.eq_dec m 0) as [->|]; [simpl; lia|].
  rewrite Zdigits2_log2 by lia.
  apply Z.log2_spec. lia.
Qed.

Lemma Zdigits2_ge (m : Z) : 0 < m -> 2 ^ (Zdigits2 m - 1) <= m.
Proof.
  intros Hm. rewrite Zdigits2_log2 by lia.
  replace (Z.log2 m + 1 - 1) with (Z.log2 m) by lia.
  apply Z.log2_spec. lia.
Qed.

Lemma shr_1_m (mrs : shr_record) :
  0 <= shr_m mrs -> shr_m (shr_1 mrs) = shr_m mrs / 2.
Proof.
  destruct mrs as [m r s]. simpl. intros Hm.
  destruct m as [|p|p]; [reflexivity| |lia].
  destruct p as [p|p|]; simpl.
  - rewrite Pos2Z.inj_xI. apply Z.div_unique with 1; lia.
  - rewrite Pos2Z.inj_xO. apply Z.div_unique with 0; lia.
  - reflexivity.
Qed.

Lemma iter_pos_shr_m (p : positive) :
  forall mrs, 0 <= shr_m mrs ->
  shr_m (iter_pos shr_1 p mrs) = shr_m mrs / 2 ^ Zpos p.
Proof.
  induction p as [p IH|p IH|]; intros mrs Hm; simpl iter_pos.
  - assert (H1 : 0 <= shr_m (shr_1 mrs))
      by (rewrite shr_1_m by assumption; apply Z.div_pos; lia).
    assert (H2 : 0 <= shr_m (iter_pos shr_1 p (shr_1 mrs)))
      by (rewrite IH by assumption; apply Z.div_pos; lia).
    rewrite IH, IH, shr_1_m by assumption.
    rewrite !Z.div_div by lia. f_equal.
    replace (Zpos p~1) with (1 + (Zpos p + Zpos p)) by lia.
    now rewrite !Z.pow_add_r by lia.
  - assert (H2 : 0 <= shr_m (iter_pos shr_1 p mrs))
      by (rewrite IH by assumption; apply Z.div_pos; lia).
    rewrite IH, IH by assumption.
    rewrite !Z.div_div by lia. f_equal.
    replace (Zpos p~0) with (Zpos p + Zpos p) by lia.
    now rewrite Z.pow_add_r by lia.
  - rewrite shr_1_m by assumption. reflexivity.
Qed.

Lemma shr_record_of_loc_m (m : Z) (l : location) : shr_m (shr_record_of_loc m l) = m.
Proof.
  destruct l as [|[]]; reflexivity.
Qed.

(** What [shr_fexp] does to a mantissa that is not negative. *)
Lemma shr_fexp_spec (m e : Z) (l : location) :
  0 <= m ->
  let e' := Z.max e (fexp prec emax (Zdigits2 m + e)) in
  snd (shr_fexp prec emax m e l) = e' /\
  shr_m (fst (shr_fexp prec emax m e l)) = m / 2 ^ (e' - e).
Proof.
  intros Hm e'. unfold shr_fexp, shr. subst e'.
  destruct (fexp prec emax (Zdigits2 m + e) - e) as [|n|n] eqn:En; simpl.
  - rewrite shr_record_of_loc_m.
    replace (Z.max e (fexp prec emax (Zdigits2 m + e))) with e by lia.
    now rewrite Z.sub_diag, Z.div_1_r.
  - rewrite iter_pos_shr_m by (now rewrite shr_record_of_loc_m).
    rewrite shr_record_of_loc_m.
    replace (Z.max e (fexp prec emax (Zdigits2 m + e))) with (e + Zpos n) by lia.
    split; [reflexivity|]. now replace (e + Zpos n - e) with (Zpos n) by lia.
  - rewrite shr_record_of_loc_m.
    replace (Z.max e (fexp prec emax (Zdigits2 m + e))) with e by lia.
    now rewrite Z.sub_diag, Z.div_1_r.
Qed.

Lemma round_nearest_even_bounds (m : Z) (l : location) :
  m <= round_nearest_even m l <= m + 1.
Proof.
  destruct l as [|[]]; simpl; try lia. destruct (Z.even m); lia.
Qed.

Lemma fexp_eq (x : Z) : fexp prec emax x = Z.max (x - 53) (- 1074).
Proof. reflexivity. Qed.

(** Rounding keeps the sign and at most doubles the magnitude; within the
    exponent range nothing overflows. *)
Lemma binary_round_aux_bound (s : bool) (m e : Z) (l : location) (D : Z) :
  0 <= m -> Zdigits2 m + e <= D -> - 1074 <= D <= 971 ->
  bounded_float s (D + 1) (binary_round_aux prec emax s m e l).
Proof.
  intros Hm HD HDr. unfold binary_round_aux.
  pose proof (shr_fexp_spec m e l Hm) as [He1 Hm1].
  destruct (shr_fexp prec emax m e l) as [mrs1 e1]. simpl in He1, Hm1.
  rewrite <- He1 in Hm1.
  set (m1 := round_nearest_even (shr_m mrs1) (loc_of_shr_record mrs1)).
  pose proof (round_nearest_even_bounds (shr_m mrs1) (loc_of_shr_record mrs1)) as Hr.
  fold m1 in Hr.
  pose proof (Zdigits2_nonneg m) as Hd0.
  assert (Hk1 : 0 <= e1 - e) by lia.
  assert (Hq1 : 0 <= shr_m mrs1) by (rewrite Hm1; apply Z.div_pos; lia).
  assert (Hd1 : Zdigits2 (shr_m mrs1) <= Z.max 0 (Zdigits2 m - (e1 - e)))
    by (rewrite Hm1; now apply Zdigits2_div_pow2).
  assert (Hdr : Zdigits2 m1 <= Zdigits2 (shr_m mrs1) + 1).
  { etransitivity; [apply (Zdigits2_le_mono m1 (shr_m mrs1 + 1)); lia|].
    now apply Zdigits2_succ. }
  assert (Hm1' : 0 <= m1) by lia.
  pose proof (shr_fexp_spec m1 e1 loc_Exact Hm1') as [He2 Hm2].
  destruct (shr_fexp prec emax m1 e1 loc_Exact) as [mrs2 e2]. simpl in He2, Hm2.
  rewrite <- He2 in Hm2.
  assert (Hk2 : 0 <= e2 - e1) by lia.
  assert (Hq2 : 0 <= shr_m mrs2) by (rewrite Hm2; apply Z.div_pos; lia).
  assert (Hd2 : Zdigits2 (shr_m mrs2) <= Z.max 0 (Zdigits2 m1 - (e2 - e1)))
    by (rewrite Hm2; now apply Zdigits2_div_pow2).
  rewrite fexp_eq in He1, He2. clearbody m1. clear Hm1 Hm2.
  destruct (shr_m mrs2) as [|p|p] eqn:Ep; simpl; [reflexivity| |lia].
  replace (e2 <=? 971) with true by (symmetry; apply Z.leb_le; lia).
  split; [reflexivity|]. lia.
Qed.

Lemma digits2_pos_iter_xO (m d : positive) :
  Zpos (digits2_pos (Pos.iter xO m d)) = Zpos (digits2_pos m) + Zpos d.
Proof.
  induction d as [|d IH] using Pos.peano_ind.
  - simpl. lia.
  - rewrite Pos.iter_succ. simpl digits2_pos. lia.
Qed.

Lemma shl_align_spec (mx : positive) (ex ex' : Z) :
  snd (shl_align mx ex ex') <= ex /\
  Zdigits2 (Zpos (fst (shl_align mx ex ex'))) + snd (shl_align mx ex ex')
  = Zdigits2 (Zpos mx) + ex.
Proof.
  unfold shl_align.
  destruct (ex' - ex) as [|d|d] eqn:Ed; cbn [fst snd Zdigits2]; try lia.
  rewrite digits2_pos_iter_xO. lia.
Qed.

Lemma binary_round_bound (s : bool) (m : positive) (e D : Z) :
  Zdigits2 (Zpos m) + e <= D -> - 1074 <= D <= 971 ->
  bounded_float s (D + 1) (binary_round prec emax s m e).
Proof.
  intros HD HDr. unfold binary_round.
  pose proof (shl_align_spec m e (fexp prec emax (Zpos (digits2_pos m) + e)))
    as [_ Hal].
  destruct (shl_align m e (fexp prec emax (Zpos (digits2_pos m) + e))) as [mz ez].
  cbn [fst snd Zdigits2] in *. apply binary_round_aux_bound; [lia| |assumption].
  cbn [Zdigits2]. lia.
Qed.

(** [float(z)] of an integer below [2 ^ D] in absolute value. *)
Lemma float_of_Z_bound (z D : Z) :
  Z.abs z < 2 ^ D -> 0 <= D <= 971 ->
  bounded_float (z <? 0) (D + 1) (float_of_Z z).
Proof.
  intros Hz HD. unfold float_of_Z, binary_normalize.
  destruct z as [|p|p]; [reflexivity| |].
  - apply binary_round_bound; [|lia].
    rewrite Z.add_0_r. apply Zdigits2_bound; lia.
  - apply binary_round_bound; [|lia].
    rewrite Z.add_0_r. apply Zdigits2_bound; lia.
Qed.

Lemma float_of_int_ok (z D : Z) :
  Z.abs z < 2 ^ D -> 0 <= D <= 971 -> float_of_int z = Ok (float_of_Z z).
Proof.
  intros Hz HD. unfold float_of_int.
  pose proof (float_of_Z_bound z D Hz HD) as H.
  now destruct (float_of_Z z).
Qed.

Lemma float_of_int_int64 (z : Z) : int64 z -> float_of_int z = Ok (float_of_Z z).
Proof.
  intros [Hlo Hhi]. apply (float_of_int_ok z 64); [|lia].
  change (2 ^ 63) with 9223372036854775808 in *.
  change (2 ^ 64) with 18446744073709551616. lia.
Qed.

Lemma SFdiv_core_binary_bound (m1 m2 : positive) (e1 e2 : Z) :
  let '(q, e', _) := SFdiv_core_binary prec emax (Zpos m1) e1 (Zpos m2) e2 in
  0 <= q /\
  Zdigits2 q + e'
  <= Z.max (Zdigits2 (Zpos m1) + e1 - (Zdigits2 (Zpos m2) + e2) + 1) (- 1074).
Proof.
  unfold SFdiv_core_binary.
  set (d1 := Zdigits2 (Zpos m1)). set (d2 := Zdigits2 (Zpos m2)).
  set (e' := Z.min (fexp prec emax (d1 + e1 - (d2 + e2))) (e1 - e2)).
  set (s := e1 - e2 - e').
  set (m' := match s with
             | Zpos _ => Z.shiftl (Zpos m1) s
             | Z0 => Zpos m1
             | Zneg _ => 0
             end).
  assert (Hs : 0 <= s) by (unfold s, e'; lia).
  assert (Hm' : m' = Zpos m1 * 2 ^ s).
  { unfold m'. destruct s as [|p|p] eqn:Es; [simpl; lia| |lia].
    now rewrite Z.shiftl_mul_pow2 by lia. }
  assert (Hd1 : Zpos m1 < 2 ^ d1) by (apply Zdigits2_gt; lia).
  assert (Hd2 : 2 ^ (d2 - 1) <= Zpos m2) by (apply Zdigits2_ge; lia).
  assert (Hd1' : 1 <= d1) by (unfold d1; cbn [Zdigits2]; lia).
  assert (Hd2' : 1 <= d2) by (unfold d2; cbn [Zdigits2]; lia).
  assert (H0 : 0 <= m') by (rewrite Hm'; apply Z.mul_nonneg_nonneg; lia).
  assert (Hdm' : Zdigits2 m' <= d1 + s).
  { apply Zdigits2_bound; [|lia]. split; [assumption|].
    rewrite Hm', Z.pow_add_r by lia.
    apply Z.mul_lt_mono_pos_r; [apply Z.pow_pos_nonneg; lia | assumption]. }
  clearbody m'.
  assert (Hq : Z.div_eucl m' (Zpos m2) = (m' / Zpos m2, m' mod Zpos m2))
    by (unfold Z.div, Z.modulo; now destruct (Z.div_eucl m' (Zpos m2))).
  rewrite Hq.
  assert (Hq0 : 0 <= m' / Zpos m2) by (apply Z.div_pos; lia).
  split; [assumption|].
  assert (Hle : m' / Zpos m2 <= m' / 2 ^ (d2 - 1))
    by (apply Z.div_le_compat_l; lia).
  assert (Hdq : Zdigits2 (m' / Zpos m2) <= Z.max 0 (Zdigits2 m' - (d2 - 1))).
  { etransitivity; [apply (Zdigits2_le_mono _ (m' / 2 ^ (d2 - 1))); lia|].
    apply Zdigits2_div_pow2; lia. }
  assert (He' : e' <= fexp prec emax (d1 + e1 - (d2 + e2))) by (unfold e'; lia).
  rewrite fexp_eq in He'. unfold s in *. lia.
Qed.

Lemma f1e9_eq : f1e9 = S754_finite false 8388608000000000 (-23).
Proof. reflexivity. Qed.

(** Dividing by [1e9] takes at least 29 binary orders of magnitude off,
    and the rounding gives at most one back. *)
Lemma fdiv_1e9_bound (s : bool) (D : Z) (f : spec_float) :
  bounded_float s D f -> - 1000 <= D <= 990 ->
  bounded_float s (D - 28) (fdiv f f1e9).
Proof.
  intros Hf HD. rewrite f1e9_eq. unfold fdiv, SFdiv.
  destruct f as [s'| | |s' m e]; cbn [bounded_float] in Hf; try contradiction.
  - subst. now destruct s.
  - destruct Hf as [-> Hm].
    pose proof (SFdiv_core_binary_bound m 8388608000000000 e (-23)) as H.
    destruct (SFdiv_core_binary prec emax (Zpos m) e (Zpos 8388608000000000) (-23))
      as [[q e'] l].
    destruct H as [Hq Hd].
    change (Zdigits2 (Zpos 8388608000000000)) with 53 in Hd.
    replace (xorb s false) with s by (now destruct s).
    replace (D - 28) with (Z.max (D - 29) (- 1074) + 1) by lia.
    apply binary_round_aux_bound; lia.
Qed.

Lemma float_modf_bound (D : Z) (f : spec_float) :
  bounded_float false D f -> 0 <= D -> 0 <= fst (float_modf f) < 2 ^ D.
Proof.
  intros Hf HD. assert (H2 : 0 < 2 ^ D) by (apply Z.pow_pos_nonneg; lia).
  destruct f as [s'| | |s' m e]; cbn [bounded_float] in Hf; try contradiction.
  - simpl. lia.
  - destruct Hf as [-> Hm]. unfold float_modf.
    pose proof (Zdigits2_gt (Zpos m) ltac:(lia)) as Hlt.
    set (d := Zdigits2 (Zpos m)) in *. assert (Hd : 0 <= d) by apply Zdigits2_nonneg.
    destruct (0 <=? e) eqn:He; cbn [fst cond_Zopp].
    + apply Z.leb_le in He. split; [apply Z.mul_nonneg_nonneg; lia|].
      apply Z.lt_le_trans with (2 ^ d * 2 ^ e).
      * apply Z.mul_lt_mono_pos_r; [apply Z.pow_pos_nonneg|]; lia.
      * rewrite <- Z.pow_add_r by lia. apply Z.pow_le_mono_r; lia.
    + apply Z.leb_gt in He. split; [apply Z.div_pos; [lia|apply Z.pow_pos_nonneg; lia]|].
      apply Z.div_lt_upper_bound; [apply Z.pow_pos_nonneg; lia|].
      rewrite <- Z.pow_add_r by lia.
      apply Z.lt_le_trans with (2 ^ d); [assumption|].
      apply Z.pow_le_mono_r; lia.
Qed.

Lemma civil_from_days_year (days : Z) :
  - 1 <= days <= 1600000 ->
  1600 <= fst (fst (civil_from_days days)) <= 6401.
Proof.
  intros Hd. unfold civil_from_days. cbv zeta. cbn [fst].
  set (z := days + 719468).
  set (era := z / 146097).
  set (doe := z - era * 146097).
  set (yoe := (doe - doe / 1460 + doe / 36524 - doe / 146096) / 365).
  assert (Hera : 4 <= era <= 15).
  { unfold era, z. split.
    - apply Z.div_le_lower_bound; lia.
    - assert ((days + 719468) / 146097 < 16)
        by (apply Z.div_lt_upper_bound; lia).
      lia. }
  assert (Hdoe : 0 <= doe < 146097).
  { unfold doe, era. pose proof (Z.mod_pos_bound z 146097 ltac:(lia)).
    rewrite Z.mod_eq in H by lia. lia. }
  assert (Hyoe : 0 <= yoe <= 400).
  { unfold yoe. clearbody doe. clear Hera.
    Z.to_euclidean_division_equations. lia. }
  clearbody yoe era.
  match goal with |- context [if ?b then _ else _] => destruct b end; lia.
Qed.

(** A float that is not negative and below [2 ^ 37] seconds falls within
    the years [datetime] supports. *)
Lemma fromtimestamp_utc_ok (f : spec_float) :
  bounded_float false 37 f ->
  exists dt, fromtimestamp_utc f = Ok dt /\ MINYEAR <= year dt <= MAXYEAR.
Proof.
  intros Hf. pose proof (float_modf_bound 37 f Hf ltac:(lia)) as Hip.
  change (2 ^ 37) with 137438953472 in Hip.
  unfold fromtimestamp_utc.
  assert (Hshape : match f with S754_nan | S754_infinity _ => False | _ => True end)
    by (destruct f; cbn [bounded_float] in Hf; tauto).
  destruct (float_modf f) as [ip fr]. cbn [fst] in Hip.
  set (us0 := float_round_half_even (fmul fr f1e6)).
  set (su := if 1000000 <=? us0 then (ip + 1, us0 - 1000000)
             else if us0 <? 0 then (ip - 1, us0 + 1000000)
             else (ip, us0)).
  assert (Hsecs : - 1 <= fst su <= 137438953472).
  { unfold su. destruct (1000000 <=? us0); [simpl; lia|].
    destruct (us0 <? 0); simpl; lia. }
  destruct su as [secs us]. cbn [fst] in Hsecs.
  assert (Hdays : - 1 <= secs / 86400 <= 1600000).
  { split.
    - apply Z.div_le_lower_bound; lia.
    - assert (secs / 86400 < 1600000) by (apply Z.div_lt_upper_bound; lia).
      lia. }
  pose proof (civil_from_days_year (secs / 86400) Hdays) as Hy.
  destruct (civil_from_days (secs / 86400)) as [[y m] d]. cbn [fst] in Hy.
  assert (E1 : negb ((time_t_min <=? secs) && (secs <=? time_t_max)) = false).
  { apply negb_false_iff, andb_true_iff.
    unfold time_t_min, time_t_max.
    change (2 ^ 63) with 9223372036854775808. split; apply Z.leb_le; lia. }
  assert (E2 : negb ((int_min <=? y - 1900) && (y - 1900 <=? int_max)) = false).
  { apply negb_false_iff, andb_true_iff.
    unfold int_min, int_max. change (2 ^ 31) with 2147483648.
    split; apply Z.leb_le; lia. }
  assert (E3 : negb ((MINYEAR <=? y) && (y <=? MAXYEAR)) = false).
  { apply negb_false_iff, andb_true_iff.
    unfold MINYEAR, MAXYEAR. split; apply Z.leb_le; lia. }
  destruct f; try contradiction; rewrite E1, E2, E3;
    (eexists; split; [reflexivity|]; unfold MINYEAR, MAXYEAR; simpl; lia).
Qed.

(** Every unsigned 64-bit count of nanoseconds has a rendering. *)
Lemma format_timestamp_uint64 (t : Z) :
  0 <= t < 2 ^ 64 ->
  exists dt,
    format_timestamp (SInt t) = Ok (isoformat dt) /\
    MINYEAR <= year dt <= MAXYEAR.
Proof.
  intros Ht. unfold format_timestamp, truediv. cbn [isinstance_int].
  assert (Habs : Z.abs t < 2 ^ 64) by lia.
  rewrite (float_of_int_ok t 64) by (assumption || lia). cbn [rbind].
  change (is_zero f1e9) with false. cbv iota.
  pose proof (float_of_Z_bound t 64 Habs ltac:(lia)) as Hb.
  replace (t <? 0) with false in Hb by (symmetry; apply Z.ltb_ge; lia).
  apply (fdiv_1e9_bound false (64 + 1)) in Hb; [|lia].
  destruct (fromtimestamp_utc_ok _ Hb) as (dt & Hdt & Hy).
  exists dt. cbn [rbind]. rewrite Hdt. now split.
Qed.

(** ** The timestamp formatter *)







(** ** The record mapper of live mode *)

Lemma getattr_lookup (r : record) (name : string) (v : scalar) :
  lookup name (fields r) = Some v -> getattr r name = Ok v.
Proof.
  intros H. unfold getattr. now rewrite H.
Qed.

Lemma truediv_int64 (p : Z) : int64 p -> truediv (SInt p) f1e9 = Ok (scaled p).
Proof.
  intros Hp. unfold truediv. now rewrite float_of_int_int64.
Qed.

(** What [process_record] leaves on stdout, from what [live_event] says. *)
Lemma process_record_emits (symbol : string) (r : record) (data : option event) :
  live_event symbol r = Ok data ->
  exists o,
    process_record symbol r quiet = (Done tt, o, quiet) /\
    stdout o = match data with Some d => [d] | None => [] end.
Proof.
  intros H. destruct (process_record_yields symbol r) as (o & Hrun & Hv).
  rewrite H in Hrun, Hv. exists o. split; [exact Hrun|].
  rewrite <- stdout_visible, Hv. now destruct data.
Qed.

(** C4. A trade record with a nanosecond timestamp, a fixed-point price
    [P] and a size is written as one trade event whose price is the float
    [P / 1e9] (the binary64 quotient of [float(P)] by [1e9], a finite
    float of the sign of [P]) and whose size is the size of the record;
    its action and its side are the string forms of the fields of the
    record that exist, and null for the ones that do not: a missing
    action or side is not a failure. *)
Theorem live_trade_is_rescaled
    (symbol : string) (r : record) (T P : Z) (size : scalar) :
  rtype r = "TradeMsg" ->
  lookup "ts_event" (fields r) = Some (SInt T) -> 0 <= T < 2 ^ 64 ->
  lookup "price" (fields r) = Some (SInt P) -> int64 P ->
  lookup "size" (fields r) = Some size ->
  exists ts o,
    format_timestamp (SInt T) = Ok ts /\
    process_record symbol r quiet = (Done tt, o, quiet) /\
    stdout o =
      [[("type", VStr "trade");
        ("ts", VStr ts);
        ("price", VFloat (fdiv (float_of_Z P) f1e9));
        ("size", of_scalar size);
        ("symbol", VStr symbol);
        ("action", match lookup "action" (fields r) with
                   | Some a => VStr (py_str a)
                   | None => VNone
                   end);
        ("side", match lookup "side" (fields r) with
                 | Some a => VStr (py_str a)
                 | None => VNone
                 end)]] /\
    bounded_float (P <? 0) 37 (fdiv (float_of_Z P) f1e9).
Proof.
  intros Hty Hts HT Hpx HP Hsz.
  destruct (format_timestamp_uint64 T HT) as (dt & Hf & _).
  eassert (Hev : live_event symbol r = Ok (Some _)).
  { unfold live_event. rewrite Hty. cbn [String.eqb Ascii.eqb Bool.eqb rbind].
    unfold live_trade.
    rewrite (getattr_lookup _ _ _ Hts), (getattr_lookup _ _ _ Hpx),
      (getattr_lookup _ _ _ Hsz). cbn [rbind].
    rewrite Hf, (truediv_int64 P HP). reflexivity. }
  destruct (process_record_emits _ _ _ Hev) as (o & Hrun & Hout).
  exists (isoformat dt), o. split; [exact Hf|]. split; [exact Hrun|].
  split; [exact Hout|].
  apply (fdiv_1e9_bound (P <? 0) (64 + 1)); [|lia].
  apply float_of_Z_bound; [|lia].
  destruct HP as [Hlo Hhi]. change (2 ^ 63) with 9223372036854775808 in *.
  change (2 ^ 64) with 18446744073709551616. lia.
Qed.

Lemma live_trade_is_rescaled_witness :
  exists ts o,
    format_timestamp (SInt 1735732800000000000) = Ok ts /\
    process_record "ES.FUT"
      (MkRecord "TradeMsg"
         [("ts_event", SInt 1735732800000000000); ("price", SInt 6000250000000);
          ("size", SInt 3); ("side", SStr "B")] None) quiet
      = (Done tt, o, quiet) /\
    stdout o =
      [[("type", VStr "trade");
        ("ts", VStr ts);
        ("price", VFloat (S754_finite false 6597344644562944 (-40)));
        ("size", VInt 3);
        ("symbol", VStr "ES.FUT");
        ("action", VNone);
        ("side", VStr "B")]].
Proof.
  assert (HT : 0 <= 1735732800000000000 < 2 ^ 64) by (vm_compute; split; [discriminate | reflexivity]).
  assert (HP : int64 6000250000000) by (vm_compute; split; [discriminate | reflexivity]).
  destruct (live_trade_is_rescaled "ES.FUT"
              (MkRecord "TradeMsg"
                 [("ts_event", SInt 1735732800000000000); ("price", SInt 6000250000000);
                  ("size", SInt 3); ("side", SStr "B")] None)
              1735732800000000000 6000250000000 (SInt 3)
              eq_refl eq_refl HT eq_refl HP eq_refl)
    as (ts & o & Hf & Hrun & Hout & _).
  exists ts, o. split; [exact Hf|]. split; [exact Hrun|].
  rewrite Hout. vm_compute. reflexivity.
Defined.

Lemma px_or_none_fixed_point (lv : level) (name : string) :
  fixed_point_or_absent (lookup name lv) ->
  px_or_none lv name = Ok (match lookup name lv with
                           | Some (SInt p) => VFloat (fdiv (float_of_Z p) f1e9)
                           | _ => VNone
                           end).
Proof.
  unfold px_or_none, fixed_point_or_absent.
  destruct (lookup name lv) as [[| |p|]|]; try contradiction; [|reflexivity].
  intros Hp. now rewrite truediv_int64.
Qed.

(** C5. A top-of-book record whose sequence of levels is empty writes
    nothing, and that is not an error.  One that has a level writes
    exactly one quote event, made from level zero alone: each of the bid
    and ask prices is the rescaled field of that level, each of the sizes
    the field itself, and null stands for every one that the level does
    not have. *)
Theorem live_quote_uses_top_level
    (symbol : string) (r : record) (lvs : list level) :
  rtype r = "MBP1Msg" -> levels r = Some lvs ->
  match lvs with
  | [] =>
      exists o, process_record symbol r quiet = (Done tt, o, quiet) /\ stdout o = []
  | lv :: _ =>
      forall T,
      lookup "ts_event" (fields r) = Some (SInt T) -> 0 <= T < 2 ^ 64 ->
      fixed_point_or_absent (lookup "bid_px" lv) ->
      fixed_point_or_absent (lookup "ask_px" lv) ->
      exists ts o,
        format_timestamp (SInt T) = Ok ts /\
        process_record symbol r quiet = (Done tt, o, quiet) /\
        stdout o =
          [[("type", VStr "quote");
            ("ts", VStr ts);
            ("bid", match lookup "bid_px" lv with
                    | Some (SInt p) => VFloat (fdiv (float_of_Z p) f1e9)
                    | _ => VNone
                    end);
            ("ask", match lookup "ask_px" lv with
                    | Some (SInt p) => VFloat (fdiv (float_of_Z p) f1e9)
                    | _ => VNone
                    end);
            ("bid_size", match lookup "bid_sz" lv with
                         | Some v => of_scalar v
                         | None => VNone
                         end);
            ("ask_size", match lookup "ask_sz" lv with
                         | Some v => of_scalar v
                         | None => VNone
                         end);
            ("symbol", VStr symbol)]]
  end.
Proof.
  intros Hty Hlv. destruct lvs as [|lv rest].
  - apply (process_record_emits symbol r None).
    unfold live_event, get_levels. rewrite Hty, Hlv. reflexivity.
  - intros T Hts HT Hbid Hask.
    destruct (format_timestamp_uint64 T HT) as (dt & Hf & _).
    eassert (Hev : live_event symbol r = Ok (Some _)).
    { unfold live_event, get_levels. rewrite Hty, Hlv.
      cbn [String.eqb Ascii.eqb Bool.eqb rbind].
      unfold quote. rewrite (getattr_lookup _ _ _ Hts). cbn [rbind].
      rewrite Hf, (px_or_none_fixed_point lv "bid_px" Hbid),
        (px_or_none_fixed_point lv "ask_px" Hask).
      reflexivity. }
    destruct (process_record_emits _ _ _ Hev) as (o & Hrun & Hout).
    exists (isoformat dt), o. split; [exact Hf|]. split; [exact Hrun | exact Hout].
Qed.

Lemma live_quote_uses_top_level_witness :
  (exists o,
     process_record "ES.FUT"
       (MkRecord "MBP1Msg" [("ts_event", SInt 1735732800000000000)] (Some [])) quiet
       = (Done tt, o, quiet) /\ stdout o = []) /\
  (exists ts o,
     format_timestamp (SInt 1735732800000000000) = Ok ts /\
     process_record "ES.FUT"
       (MkRecord "MBP1Msg" [("ts_event", SInt 1735732800000000000)]
          (Some [[("bid_px", SInt 6000250000000); ("ask_sz", SInt 15)];
                 [("bid_px", SInt 1); ("ask_px", SInt 2)]])) quiet
       = (Done tt, o, quiet) /\
     stdout o =
       [[("type", VStr "quote");
         ("ts", VStr ts);
         ("bid", VFloat (S754_finite false 6597344644562944 (-40)));
         ("ask", VNone);
         ("bid_size", VNone);
         ("ask_size", VInt 15);
         ("symbol", VStr "ES.FUT")]]).
Proof.
  split.
  - exact (live_quote_uses_top_level "ES.FUT"
             (MkRecord "MBP1Msg" [("ts_event", SInt 1735732800000000000)] (Some []))
             [] eq_refl eq_refl).
  - assert (HT : 0 <= 1735732800000000000 < 2 ^ 64)
      by (vm_compute; split; [discriminate | reflexivity]).
    assert (HP : int64 6000250000000) by (vm_compute; split; [discriminate | reflexivity]).
    destruct (live_quote_uses_top_level "ES.FUT"
                (MkRecord "MBP1Msg" [("ts_event", SInt 1735732800000000000)]
                   (Some [[("bid_px", SInt 6000250000000); ("ask_sz", SInt 15)];
                          [("bid_px", SInt 1); ("ask_px", SInt 2)]]))
                _ eq_refl eq_refl 1735732800000000000 eq_refl HT HP I)
      as (ts & o & Hf & Hrun & Hout).
    exists ts, o. split; [exact Hf|]. split; [exact Hrun|].
    rewrite Hout. vm_compute. reflexivity.
Defined.

(** C10. A trade record that historical mode maps gives an event with
    exactly the keys type, ts, price, size and symbol: action and side
    are left out altogether.  In live mode every trade event has, after
    those five, the keys action and side, each null when the record has
    no such field. *)
Theorem trade_keys_differ_by_mode (symbol : string) (r : record) :
  (forall records records',
     rtype r = "TradeMsg" ->
     collect_record symbol r records = Ok records' ->
     exists data,
       records' = records ++ [data] /\
       lookup "type" data = Some (VStr "trade") /\
       keys data = ["type"; "ts"; "price"; "size"; "symbol"]) /\
  (forall data,
     live_event symbol r = Ok (Some data) ->
     lookup "type" data = Some (VStr "trade") ->
     keys data = ["type"; "ts"; "price"; "size"; "symbol"; "action"; "side"] /\
     lookup "action" data = Some (match lookup "action" (fields r) with
                                  | Some a => VStr (py_str a)
                                  | None => VNone
                                  end) /\
     lookup "side" data = Some (match lookup "side" (fields r) with
                                | Some a => VStr (py_str a)
                                | None => VNone
                                end)).
Proof.
  split.
  - intros records records' Hty. unfold collect_record. rewrite Hty.
    cbn [String.eqb Ascii.eqb Bool.eqb].
    destruct (getattr r "ts_event") as [t|]; cbn [rbind]; [|discriminate].
    destruct (format_timestamp t); cbn [rbind]; [|discriminate].
    destruct (getattr r "price") as [pr|]; cbn [rbind]; [|discriminate].
    destruct (truediv pr f1e9); cbn [rbind]; [|discriminate].
    destruct (getattr r "size"); cbn [rbind]; [|discriminate].
    intros H. injection H as <-. eexists. split; [reflexivity|]. now split.
  - intros data. unfold live_event.
    destruct (String.eqb (rtype r) "TradeMsg").
    { unfold live_trade.
      destruct (getattr r "ts_event") as [t|]; cbn [rbind]; [|discriminate].
      destruct (format_timestamp t); cbn [rbind]; [|discriminate].
      destruct (getattr r "price") as [pr|]; cbn [rbind]; [|discriminate].
      destruct (truediv pr f1e9); cbn [rbind]; [|discriminate].
      destruct (getattr r "size"); cbn [rbind]; [|discriminate].
      intros H _. injection H as <-. unfold str_attr_or. now repeat split. }
    destruct (String.eqb (rtype r) "OHLCVMsg").
    { unfold ohlcv.
      destruct (getattr r "ts_event") as [t|]; cbn [rbind]; [|discriminate].
      destruct (format_timestamp t); cbn [rbind]; [|discriminate].
      destruct (getattr r "open") as [v1|]; cbn [rbind]; [|discriminate].
      destruct (truediv v1 f1e9); cbn [rbind]; [|discriminate].
      destruct (getattr r "high") as [v2|]; cbn [rbind]; [|discriminate].
      destruct (truediv v2 f1e9); cbn [rbind]; [|discriminate].
      destruct (getattr r "low") as [v3|]; cbn [rbind]; [|discriminate].
      destruct (truediv v3 f1e9); cbn [rbind]; [|discriminate].
      destruct (getattr r "close") as [v4|]; cbn [rbind]; [|discriminate].
      destruct (truediv v4 f1e9); cbn [rbind]; [|discriminate].
      destruct (getattr r "volume"); cbn [rbind]; [|discriminate].
      intros H. injection H as <-. discriminate. }
    destruct (String.eqb (rtype r) "MBP1Msg").
    { destruct (get_levels r) as [[|lv lvs]|]; cbn [rbind]; try discriminate.
      unfold quote.
      destruct (getattr r "ts_event") as [t|]; cbn [rbind]; [|discriminate].
      destruct (format_timestamp t); cbn [rbind]; [|discriminate].
      destruct (px_or_none lv "bid_px"); cbn [rbind]; [|discriminate].
      destruct (px_or_none lv "ask_px"); cbn [rbind]; [|discriminate].
      intros H. injection H as <-. discriminate. }
    destruct (String.eqb (rtype r) "ErrorMsg").
    { intros H. injection H as <-. discriminate. }
    destruct (String.eqb (rtype r) "SystemMsg").
    { intros H. injection H as <-. discriminate. }
    discriminate.
Qed.

Lemma trade_keys_differ_by_mode_witness :
  (exists data,
     collect_record "ES.FUT" sample_trade [] = Ok [data] /\
     keys data = ["type"; "ts"; "price"; "size"; "symbol"]) /\
  (exists data,
     live_event "ES.FUT" sample_faulty_free = Ok (Some data) /\
     keys data = ["type"; "ts"; "price"; "size"; "symbol"; "action"; "side"] /\
     lookup "action" data = Some VNone /\
     lookup "side" data = Some (VStr "B")).
Proof.
  eassert (E1 : collect_record "ES.FUT" sample_trade [] = Ok _)
    by (vm_compute; reflexivity).
  eassert (E2 : live_event "ES.FUT" sample_faulty_free = Ok (Some _))
    by (vm_compute; reflexivity).
  split.
  - destruct (proj1 (trade_keys_differ_by_mode "ES.FUT" sample_trade)
                [] _ eq_refl E1) as (data & Heq & _ & Hk).
    exists data. split; [|exact Hk]. rewrite E1. f_equal. exact Heq.
  - destruct (proj2 (trade_keys_differ_by_mode "ES.FUT" sample_faulty_free)
                _ E2 eq_refl) as (Hk & Ha & Hs).
    eexists. split; [exact E2|]. split; [exact Hk|]. split; [exact Ha | exact Hs].
Defined.

(** * Further properties of the bridge *)

(** ** Start-up and the end of a live session *)

(** X1. When the [databento] package cannot be imported, either mode
    writes one error line that tells how to install it and ends the
    process with status 1; nothing else of the provider is called. *)
Theorem missing_package_is_fatal (p : provider) (a : args) :
  installed p = false ->
  exists o,
    main p a quiet = (Exit 1, o, quiet) /\
    visible o =
      [Called Import_databento;
       Wrote [("type", VStr "error");
              ("message",
               VStr "databento package not installed. Run: pip install databento")]] /\
    exit_status (@Exit unit 1) quiet = 1.
Proof.
  intros Hi.
  assert (H : yields (import_or_exit p) (Exit 1)
                [Called Import_databento;
                 Wrote [("type", VStr "error");
                        ("message",
                         VStr "databento package not installed. Run: pip install databento")]]).
  { unfold import_or_exit, import_databento. rewrite Hi.
    apply yields_stmt.
    change [Called Import_databento;
            Wrote [("type", VStr "error");
                   ("message",
                    VStr "databento package not installed. Run: pip install databento")]]
      with ([Called Import_databento]
            ++ [Wrote [("type", VStr "error");
                       ("message",
                        VStr "databento package not installed. Run: pip install databento")]]
            ++ []).
    eapply yields_try_caught.
    - apply yields_stmt.
      apply (yields_provider_call Import_databento
               (@Err unit (MkExn ImportError "No module named 'databento'"))).
    - reflexivity.
    - eapply yields_bind; [apply yields_stmt, yields_emit|].
      apply yields_stmt, yields_sys_exit. }
  assert (H' : yields (main p a) (Exit 1)
                 [Called Import_databento;
                  Wrote [("type", VStr "error");
                         ("message",
                          VStr "databento package not installed. Run: pip install databento")]]).
  { unfold main. destruct (String.eqb (mode a) "live").
    - unfold run_live_stream. now apply yields_bind_exit.
    - unfold run_historical. now apply yields_bind_exit. }
  destruct H' as (o & Hrun & Hv). exists o. now repeat split.
Qed.

Lemma missing_package_is_fatal_witness :
  exists o,
    main (MkProvider false (Ok tt) (Ok tt) [sample_trade] None (Ok tt)
            (fun _ => Ok ([sample_trade], None)))
      (sample_args "historical") quiet = (Exit 1, o, quiet) /\
    stdout o =
      [[("type", VStr "error");
        ("message",
         VStr "databento package not installed. Run: pip install databento")]].
Proof.
  destruct (missing_package_is_fatal
              (MkProvider false (Ok tt) (Ok tt) [sample_trade] None (Ok tt)
                 (fun _ => Ok ([sample_trade], None)))
              (sample_args "historical") eq_refl)
    as (o & Hrun & Hv & _).
  exists o. split; [exact Hrun|]. now rewrite <- stdout_visible, Hv.
Defined.

(** X2. When the live client cannot be created, or the subscription is
    refused, the run has written "connecting" and then writes one error
    line with the description of the fault and ends with status 1:
    neither "connected" nor "streaming" is written, and no record is
    read.  When the client cannot be created the subscription is not
    attempted. *)
Theorem live_connection_failure_is_fatal
    (p : provider) (api_key symbol schema dataset : string) (x : exn) :
  installed p = true ->
  live_answer p = Err x \/ (live_answer p = Ok tt /\ subscribe_answer p = Err x) ->
  exists o,
    run_live_stream p api_key symbol schema dataset quiet = (Exit 1, o, quiet) /\
    stdout o =
      [status_for "connecting" symbol schema;
       [("type", VStr "error"); ("message", VStr (str_exn x))]] /\
    (live_answer p = Err x ->
     ~ In (Called (Subscribe dataset schema "parent" symbol)) o) /\
    exit_status (@Exit unit 1) quiet = 1.
Proof.
  intros Hi Hx.
  assert (H : exists v,
             yields (live_session p api_key symbol schema dataset) (Raise x) v /\
             stdout v = [] /\
             (live_answer p = Err x ->
              ~ In (Called (Subscribe dataset schema "parent" symbol)) v)).
  { unfold live_session. destruct Hx as [Hl|[Hl Hs]]; rewrite Hl.
    - exists [Called (Live api_key)]. split; [|split; [reflexivity|]].
      + apply yields_bind_raise, yields_stmt.
        apply (yields_provider_call (Live api_key) (@Err unit x)).
      + intros _ [H|[]]. discriminate.
    - exists [Called (Live api_key);
              Called (Subscribe dataset schema "parent" symbol)].
      split; [|split; [reflexivity|discriminate]].
      change [Called (Live api_key);
              Called (Subscribe dataset schema "parent" symbol)]
        with ([Called (Live api_key)]
              ++ [Called (Subscribe dataset schema "parent" symbol)]).
      eapply yields_bind;
        [apply yields_stmt, (yields_provider_call (Live api_key) (Ok tt))|].
      rewrite Hs. apply yields_bind_raise, yields_stmt.
      apply (yields_provider_call
               (Subscribe dataset schema "parent" symbol) (@Err unit x)). }
  destruct H as (v & Hy & Hsv & Hno).
  assert (Hrun : yields (run_live_stream p api_key symbol schema dataset) (Exit 1)
                   ([Called Import_databento]
                    ++ [Wrote (status_for "connecting" symbol schema)]
                    ++ v ++ [Wrote (fatal_error x)])).
  { unfold run_live_stream.
    eapply yields_bind; [now apply import_or_exit_yields|].
    eapply yields_bind; [apply yields_stmt, yields_emit|].
    apply yields_stmt.
    eapply yields_try_caught; [exact Hy | reflexivity | apply fatal_yields]. }
  destruct Hrun as (o & Hrun & Hv). exists o. split; [exact Hrun|].
  split; [|split; [|reflexivity]].
  - rewrite <- stdout_visible, Hv. simpl.
    now rewrite stdout_app, Hsv.
  - intros Hl Hin.
    assert (Hin' : In (Called (Subscribe dataset schema "parent" symbol)) (visible o))
      by (apply filter_In; now split).
    rewrite Hv in Hin'. simpl in Hin'.
    destruct Hin' as [H|[H|H]]; try discriminate.
    apply in_app_or in H as [H|[H|[]]]; [now apply (Hno Hl)|discriminate].
Qed.

Lemma live_connection_failure_is_fatal_witness :
  exists o,
    run_live_stream
      (MkProvider true (Ok tt) (Err (MkExn (ProviderError "BentoError") "bad key"))
         [sample_trade] None (Ok tt) (fun _ => Ok ([], None)))
      "key" "ES.FUT" "trades" "GLBX.MDP3" quiet = (Exit 1, o, quiet) /\
    stdout o =
      [status_for "connecting" "ES.FUT" "trades";
       [("type", VStr "error"); ("message", VStr "bad key")]].
Proof.
  destruct (live_connection_failure_is_fatal
              (MkProvider true (Ok tt) (Err (MkExn (ProviderError "BentoError") "bad key"))
                 [sample_trade] None (Ok tt) (fun _ => Ok ([], None)))
              "key" "ES.FUT" "trades" "GLBX.MDP3"
              (MkExn (ProviderError "BentoError") "bad key")
              eq_refl (or_intror (conj eq_refl eq_refl)))
    as (o & Hrun & Hout & _).
  exists o. split; [exact Hrun | exact Hout].
Defined.

(** X3. A live session whose subscription is accepted keeps the line of
    every record of the feed, and ends in one of two ways: when the feed
    ends by itself, with the line "disconnected", a normal return and
    status 0; when iterating raises, with an error line that carries the
    description of the fault (not prefixed as a record fault is) and
    status 1, "disconnected" not being written. *)
Theorem live_session_ends_with_feed
    (p : provider) (api_key symbol schema dataset : string) :
  installed p = true -> live_answer p = Ok tt -> subscribe_answer p = Ok tt ->
  exists r o,
    run_live_stream p api_key symbol schema dataset quiet = (r, o, quiet) /\
    stdout o =
      [status_for "connecting" symbol schema;
       status_for "connected" symbol schema;
       status "streaming"]
      ++ flat_map (record_lines symbol) (feed p)
      ++ [match feed_end p with
          | None => [("type", VStr "status"); ("message", VStr "disconnected")]
          | Some x => [("type", VStr "error"); ("message", VStr (str_exn x))]
          end] /\
    r = match feed_end p with None => Done tt | Some _ => Exit 1 end /\
    exit_status r quiet = match feed_end p with None => 0 | Some _ => 1 end.
Proof.
  intros Hi Hl Hs.
  destruct (run_live_stream_yields p api_key symbol schema dataset Hi Hl Hs)
    as (o & Hrun & Hv).
  eexists _, o. split; [exact Hrun|]. split; [|split; [reflexivity|]].
  - rewrite <- stdout_visible, Hv. simpl.
    rewrite stdout_app, stdout_map_wrote. simpl.
    now destruct (feed_end p).
  - now destruct (feed_end p).
Qed.

Lemma live_session_ends_with_feed_witness :
  exists r o,
    run_live_stream
      (MkProvider true (Ok tt) (Ok tt) [sample_heartbeat; sample_bar]
         (Some (MkExn (ProviderError "BentoError") "connection reset"))
         (Ok tt) (fun _ => Ok ([], None)))
      "key" "ES.FUT" "ohlcv-1s" "GLBX.MDP3" quiet = (r, o, quiet) /\
    r = Exit 1 /\
    List.length (stdout o) = 5%nat /\
    last (stdout o) [] =
      [("type", VStr "error"); ("message", VStr "connection reset")].
Proof.
  destruct (live_session_ends_with_feed
              (MkProvider true (Ok tt) (Ok tt) [sample_heartbeat; sample_bar]
                 (Some (MkExn (ProviderError "BentoError") "connection reset"))
                 (Ok tt) (fun _ => Ok ([], None)))
              "key" "ES.FUT" "ohlcv-1s" "GLBX.MDP3" eq_refl eq_refl eq_refl)
    as (r & o & Hrun & Hout & Hr & _).
  exists r, o. split; [exact Hrun|]. split; [exact Hr|].
  rewrite Hout. split; vm_compute; reflexivity.
Defined.

(** ** The record mapper, kind by kind *)

(** X4. A bar record with a nanosecond timestamp, four fixed-point prices
    and a volume is written in live mode as one "ohlcv" event: open,
    high, low and close are each the float quotient of the field by 1e9,
    the volume is copied, and the keys come in the order type, ts, open,
    high, low, close, volume, symbol. *)
Theorem live_bar_is_rescaled
    (symbol : string) (r : record) (T o h l c : Z) (volume : scalar) :
  rtype r = "OHLCVMsg" ->
  lookup "ts_event" (fields r) = Some (SInt T) -> 0 <= T < 2 ^ 64 ->
  lookup "open" (fields r) = Some (SInt o) -> int64 o ->
  lookup "high" (fields r) = Some (SInt h) -> int64 h ->
  lookup "low" (fields r) = Some (SInt l) -> int64 l ->
  lookup "close" (fields r) = Some (SInt c) -> int64 c ->
  lookup "volume" (fields r) = Some volume ->
  exists ts tr,
    format_timestamp (SInt T) = Ok ts /\
    process_record symbol r quiet = (Done tt, tr, quiet) /\
    stdout tr =
      [[("type", VStr "ohlcv");
        ("ts", VStr ts);
        ("open", VFloat (fdiv (float_of_Z o) f1e9));
        ("high", VFloat (fdiv (float_of_Z h) f1e9));
        ("low", VFloat (fdiv (float_of_Z l) f1e9));
        ("close", VFloat (fdiv (float_of_Z c) f1e9));
        ("volume", of_scalar volume);
        ("symbol", VStr symbol)]].
Proof.
  intros Hty Hts HT Ho Hio Hh Hih Hl Hil Hc Hic Hv.
  destruct (format_timestamp_uint64 T HT) as (dt & Hf & _).
  eassert (Hev : live_event symbol r = Ok (Some _)).
  { unfold live_event. rewrite Hty.
    cbn [String.eqb Ascii.eqb Bool.eqb rbind]. unfold ohlcv.
    rewrite (getattr_lookup _ _ _ Hts), (getattr_lookup _ _ _ Ho),
      (getattr_lookup _ _ _ Hh), (getattr_lookup _ _ _ Hl),
      (getattr_lookup _ _ _ Hc), (getattr_lookup _ _ _ Hv).
    cbn [rbind].
    rewrite Hf, (truediv_int64 o Hio), (truediv_int64 h Hih),
      (truediv_int64 l Hil), (truediv_int64 c Hic).
    reflexivity. }
  destruct (process_record_emits _ _ _ Hev) as (tr & Hrun & Hout).
  exists (isoformat dt), tr. split; [exact Hf|]. split; [exact Hrun | exact Hout].
Qed.

Lemma live_bar_is_rescaled_witness :
  exists ts tr,
    format_timestamp (SInt 1735732800000000000) = Ok ts /\
    process_record "ES.FUT" sample_bar quiet = (Done tt, tr, quiet) /\
    stdout tr =
      [[("type", VStr "ohlcv");
        ("ts", VStr ts);
        ("open", VFloat (S754_finite false 6597069766656000 (-40)));
        ("high", VFloat (S754_finite false 6598169278283776 (-40)));
        ("low", VFloat (S754_finite false 6595970255028224 (-40)));
        ("close", VFloat (S754_finite false 6597619522469888 (-40)));
        ("volume", VInt 100);
        ("symbol", VStr "ES.FUT")]].
Proof.
  assert (HT : 0 <= 1735732800000000000 < 2 ^ 64)
    by (vm_compute; split; [discriminate | reflexivity]).
  assert (H1 : int64 6000000000000) by (vm_compute; split; [discriminate | reflexivity]).
  assert (H2 : int64 6001000000000) by (vm_compute; split; [discriminate | reflexivity]).
  assert (H3 : int64 5999000000000) by (vm_compute; split; [discriminate | reflexivity]).
  assert (H4 : int64 6000500000000) by (vm_compute; split; [discriminate | reflexivity]).
  destruct (live_bar_is_rescaled "ES.FUT" sample_bar 1735732800000000000
              6000000000000 6001000000000 5999000000000 6000500000000 (SInt 100)
              eq_refl eq_refl HT eq_refl H1 eq_refl H2 eq_refl H3 eq_refl H4 eq_refl)
    as (ts & tr & Hf & Hrun & Hout).
  exists ts, tr. split; [exact Hf|]. split; [exact Hrun|].
  rewrite Hout. vm_compute. reflexivity.
Defined.

Ltac mapper_fails :=
  repeat (cbn [rbind];
          match goal with
          | |- exists x, Err _ = Err x => eexists; reflexivity
          | |- context [rbind (getattr ?r ?n) _] =>
              unfold getattr at 1;
              destruct (lookup n (fields r)) eqn:?; try congruence
          | |- context [rbind (format_timestamp ?t) _] => destruct (format_timestamp t)
          | |- context [rbind (truediv ?a ?b) _] => destruct (truediv a b)
          end).

(** X5. A trade or bar record that lacks one of the fields its event
    needs (for a trade: ts_event, price, size; for a bar: ts_event, open,
    high, low, close, volume) is never written as an event, whole or in
    part.  In live mode it gives exactly one error line, that of a record
    fault; in historical mode the callback raises. *)
Theorem record_missing_required_field_faults
    (symbol : string) (r : record) (name : string) :
  In name (required_fields (rtype r)) ->
  lookup name (fields r) = None ->
  (exists x, live_event symbol r = Err x /\
             record_lines symbol r = [record_error x]) /\
  (forall records, exists x, collect_record symbol r records = Err x).
Proof.
  intros Hin Hnone.
  assert (Hlive : exists x, live_event symbol r = Err x).
  { revert Hin. unfold required_fields, live_event.
    destruct (String.eqb (rtype r) "TradeMsg").
    - unfold live_trade. intros [<-|[<-|[<-|[]]]]; mapper_fails.
    - destruct (String.eqb (rtype r) "OHLCVMsg"); [|intros []].
      unfold ohlcv. intros [<-|[<-|[<-|[<-|[<-|[<-|[]]]]]]]; mapper_fails. }
  split.
  - destruct Hlive as [x Hx]. exists x. split; [exact Hx|].
    unfold record_lines. now rewrite Hx.
  - intros records. revert Hin. unfold required_fields, collect_record.
    destruct (String.eqb (rtype r) "TradeMsg") eqn:Et.
    + apply String.eqb_eq in Et. rewrite Et.
      cbn [String.eqb Ascii.eqb Bool.eqb].
      intros [<-|[<-|[<-|[]]]]; mapper_fails.
    + destruct (String.eqb (rtype r) "OHLCVMsg"); [|intros []].
      unfold ohlcv. intros [<-|[<-|[<-|[<-|[<-|[<-|[]]]]]]]; mapper_fails.
Qed.

Lemma record_missing_required_field_faults_witness :
  record_lines "ES.FUT" sample_faulty
  = [[("type", VStr "error");
      ("message",
       VStr "Record processing error: 'TradeMsg' object has no attribute 'price'")]].
Proof.
  destruct (proj1 (record_missing_required_field_faults "ES.FUT" sample_faulty "price"
                     (or_intror (or_introl eq_refl)) eq_refl))
    as (x & Hx & Hlines).
  rewrite Hlines. f_equal.
  assert (E : live_event "ES.FUT" sample_faulty
              = Err (no_attribute "TradeMsg" "price")) by (vm_compute; reflexivity).
  rewrite E in Hx. injection Hx as <-. vm_compute. reflexivity.
Defined.

(** X6. Notices of the provider never fault, whatever their fields.  An
    error notice is written as one "error" event whose message is the
    string form of its [err] field, or "Unknown error" when it has none;
    a system notice as one "status" event with message "system" and, for
    detail, the string form of its [msg] field, or the empty string. *)
Theorem live_notices_are_relayed (symbol : string) (r : record) :
  (rtype r = "ErrorMsg" ->
   exists tr,
     process_record symbol r quiet = (Done tt, tr, quiet) /\
     stdout tr =
       [[("type", VStr "error");
         ("message", match lookup "err" (fields r) with
                     | Some e => VStr (py_str e)
                     | None => VStr "Unknown error"
                     end)]]) /\
  (rtype r = "SystemMsg" ->
   exists tr,
     process_record symbol r quiet = (Done tt, tr, quiet) /\
     stdout tr =
       [[("type", VStr "status");
         ("message", VStr "system");
         ("detail", match lookup "msg" (fields r) with
                    | Some m => VStr (py_str m)
                    | None => VStr ""
                    end)]]).
Proof.
  split; intros Hty.
  - apply (process_record_emits symbol r (Some _)).
    unfold live_event. rewrite Hty. reflexivity.
  - apply (process_record_emits symbol r (Some _)).
    unfold live_event. rewrite Hty. reflexivity.
Qed.

Lemma live_notices_are_relayed_witness :
  (exists tr,
     process_record "ES.FUT" (MkRecord "ErrorMsg" [] None) quiet = (Done tt, tr, quiet) /\
     stdout tr = [[("type", VStr "error"); ("message", VStr "Unknown error")]]) /\
  (exists tr,
     process_record "ES.FUT"
       (MkRecord "SystemMsg" [("msg", SStr "Heartbeat")] None) quiet
       = (Done tt, tr, quiet) /\
     stdout tr = [[("type", VStr "status"); ("message", VStr "system");
                   ("detail", VStr "Heartbeat")]]).
Proof.
  split.
  - exact (proj1 (live_notices_are_relayed "ES.FUT" (MkRecord "ErrorMsg" [] None))
             eq_refl).
  - exact (proj2 (live_notices_are_relayed "ES.FUT"
                    (MkRecord "SystemMsg" [("msg", SStr "Heartbeat")] None))
             eq_refl).
Defined.

(** X7. A record whose type is none of the five the mapper knows
    (a heartbeat, a symbol mapping) is passed over in silence: live mode
    writes nothing for it and does not fault, historical mode leaves the
    collected records as they are. *)
Theorem unknown_record_is_ignored (symbol : string) (r : record) :
  ~ In (rtype r) ["TradeMsg"; "OHLCVMsg"; "MBP1Msg"; "ErrorMsg"; "SystemMsg"] ->
  (exists tr, process_record symbol r quiet = (Done tt, tr, quiet) /\ stdout tr = []) /\
  (forall records, collect_record symbol r records = Ok records).
Proof.
  intros Hnot.
  assert (Hne : forall n,
             In n ["TradeMsg"; "OHLCVMsg"; "MBP1Msg"; "ErrorMsg"; "SystemMsg"] ->
             String.eqb (rtype r) n = false).
  { intros n Hn. apply String.eqb_neq. intros E. apply Hnot. now rewrite E. }
  split.
  - apply (process_record_emits symbol r None). unfold live_event.
    rewrite !Hne by (simpl; tauto). reflexivity.
  - intros records. unfold collect_record.
    rewrite !Hne by (simpl; tauto). reflexivity.
Qed.

Lemma unknown_record_is_ignored_witness :
  (exists tr,
     process_record "ES.FUT" sample_heartbeat quiet = (Done tt, tr, quiet) /\
     stdout tr = []) /\
  collect_record "ES.FUT" sample_heartbeat [] = Ok [].
Proof.
  assert (H : ~ In (rtype sample_heartbeat)
                  ["TradeMsg"; "OHLCVMsg"; "MBP1Msg"; "ErrorMsg"; "SystemMsg"]).
  { simpl. intros [H|[H|[H|[H|[H|[]]]]]]; discriminate H. }
  split.
  - exact (proj1 (unknown_record_is_ignored "ES.FUT" sample_heartbeat H)).
  - exact (proj2 (unknown_record_is_ignored "ES.FUT" sample_heartbeat H) []).
Defined.

(** X8. The two modes map a record alike.  Where live mode faults, the
    historical callback raises the same exception; where live mode gives
    an event, the callback appends, for a bar, that very event, and for a
    trade, its first five entries: the event without action and side. *)
Theorem historical_mapping_follows_live
    (symbol : string) (r : record) (records : list event) :
  trade_or_bar r = true ->
  collect_record symbol r records =
  match live_event symbol r with
  | Ok (Some data) =>
      Ok (records ++ [if String.eqb (rtype r) "TradeMsg" then firstn 5 data else data])
  | Ok None => Ok records
  | Err x => Err x
  end.
Proof.
  unfold trade_or_bar, collect_record, live_event.
  destruct (String.eqb (rtype r) "OHLCVMsg") eqn:Eo.
  - intros _. apply String.eqb_eq in Eo. rewrite Eo.
    cbn [String.eqb Ascii.eqb Bool.eqb].
    now destruct (ohlcv symbol r).
  - destruct (String.eqb (rtype r) "TradeMsg"); [intros _|discriminate].
    unfold live_trade.
    destruct (getattr r "ts_event") as [t|]; cbn [rbind]; [|reflexivity].
    destruct (format_timestamp t); cbn [rbind]; [|reflexivity].
    destruct (getattr r "price") as [pr|]; cbn [rbind]; [|reflexivity].
    destruct (truediv pr f1e9); cbn [rbind]; [|reflexivity].
    destruct (getattr r "size"); reflexivity.
Qed.

Lemma historical_mapping_follows_live_witness :
  exists data,
    live_event "ES.FUT" sample_trade = Ok (Some data) /\
    collect_record "ES.FUT" sample_trade [] = Ok [firstn 5 data].
Proof.
  eassert (E : live_event "ES.FUT" sample_trade = Ok (Some _))
    by (vm_compute; reflexivity).
  eexists. split; [exact E|].
  rewrite (historical_mapping_follows_live "ES.FUT" sample_trade [] eq_refl), E.
  reflexivity.
Defined.

(** ** What a run writes, in any environment *)

Section Lines.

Variable I : st -> Prop.
Variable Q : event -> Prop.

#[local] Abbreviation keeps := (keeps I Q).

Hypothesis keeps_checkpoint : keeps checkpoint.
Hypothesis keeps_emit : forall data, own_line data = true -> keeps (emit data).

Lemma keeps_silent {A : Type} (m : M A) :
  (forall s, exists r o, m s = (r, o, s) /\ stdout o = []) -> keeps m.
Proof.
  intros Hm s r o s' Hs Hrun.
  destruct (Hm s) as (r0 & o0 & Hrun0 & Hout).
  rewrite Hrun0 in Hrun. injection Hrun as <- <- <-.
  rewrite Hout. now split.
Qed.

Lemma keeps_ret {A : Type} (a : A) : keeps (ret a).
Proof. apply keeps_silent. intros s. now exists (Done a), []. Qed.

Lemma keeps_raise {A : Type} (x : exn) : keeps (@raise A x).
Proof. apply keeps_silent. intros s. now exists (Raise x), []. Qed.

Lemma keeps_sys_exit {A : Type} (c : Z) : keeps (@sys_exit A c).
Proof. apply keeps_silent. intros s. now exists (Exit c), []. Qed.

Lemma keeps_provider_call {A : Type} (c : call) (r : result A) : keeps (provider_call c r).
Proof.
  apply keeps_silent. intros s. destruct r as [a|x].
  - now exists (Done a), [Called c].
  - now exists (Raise x), [Called c].
Qed.

Lemma keeps_bind {A B : Type} (m : M A) (k : A -> M B) :
  keeps m -> (forall a, keeps (k a)) -> keeps (bind m k).
Proof.
  intros Hm Hk s r o s' Hs. unfold bind.
  destruct (m s) as [[r1 o1] s1] eqn:E1.
  destruct (Hm _ _ _ _ Hs E1) as [Hs1 Ho1].
  destruct r1 as [a|x|c].
  - destruct (k a s1) as [[r2 o2] s2] eqn:E2.
    destruct (Hk a _ _ _ _ Hs1 E2) as [Hs2 Ho2].
    intros H. injection H as <- <- <-.
    split; [assumption|]. rewrite stdout_app. now apply Forall_app.
  - intros H. injection H as <- <- <-. now split.
  - intros H. injection H as <- <- <-. now split.
Qed.

(** After a pure expression, only the value it has is passed on. *)
Lemma keeps_bind_lift {A B : Type} (e : result A) (k : A -> M B) :
  (forall a, e = Ok a -> keeps (k a)) -> keeps (bind (lift e) k).
Proof.
  intros Hk. destruct e as [a|x].
  - intros s r o s' Hs. unfold bind, lift, ret.
    destruct (k a s) as [[r2 o2] s2] eqn:E2.
    destruct (Hk a eq_refl _ _ _ _ Hs E2) as [Hs2 Ho2].
    intros H. injection H as <- <- <-. now split.
  - intros s r o s' Hs. unfold bind, lift, raise.
    intros H. injection H as <- <- <-. now split.
Qed.

Lemma keeps_try_except {A : Type} (catches : exn -> bool)
    (body : M A) (handler : exn -> M A) :
  keeps body -> (forall x, keeps (handler x)) ->
  keeps (try_except catches body handler).
Proof.
  intros Hb Hh s r o s' Hs. unfold try_except.
  destruct (body s) as [[r1 o1] s1] eqn:E1.
  destruct (Hb _ _ _ _ Hs E1) as [Hs1 Ho1].
  destruct r1 as [a|x|c].
  - intros H. injection H as <- <- <-. now split.
  - destruct (catches x).
    + destruct (handler x s1) as [[r2 o2] s2] eqn:E2.
      destruct (Hh x _ _ _ _ Hs1 E2) as [Hs2 Ho2].
      intros H. injection H as <- <- <-.
      split; [assumption|]. rewrite stdout_app. now apply Forall_app.
    + intros H. injection H as <- <- <-. now split.
  - intros H. injection H as <- <- <-. now split.
Qed.

Lemma keeps_stmt {A : Type} (m : M A) : keeps m -> keeps (stmt m).
Proof.
  intros Hm. unfold stmt. apply keeps_bind; [exact keeps_checkpoint | intros _; exact Hm].
Qed.

Lemma live_trade_own (symbol : string) (r : record) (d : event) :
  live_trade symbol r = Ok d -> own_line d = true.
Proof.
  unfold live_trade.
  destruct (getattr r "ts_event") as [t|]; cbn [rbind]; [|discriminate].
  destruct (format_timestamp t); cbn [rbind]; [|discriminate].
  destruct (getattr r "price") as [pr|]; cbn [rbind]; [|discriminate].
  destruct (truediv pr f1e9); cbn [rbind]; [|discriminate].
  destruct (getattr r "size"); cbn [rbind]; [|discriminate].
  intros H. now injection H as <-.
Qed.

Lemma ohlcv_own (symbol : string) (r : record) (d : event) :
  ohlcv symbol r = Ok d -> own_line d = true.
Proof.
  unfold ohlcv.
  destruct (getattr r "ts_event") as [t|]; cbn [rbind]; [|discriminate].
  destruct (format_timestamp t); cbn [rbind]; [|discriminate].
  destruct (getattr r "open") as [v1|]; cbn [rbind]; [|discriminate].
  destruct (truediv v1 f1e9); cbn [rbind]; [|discriminate].
  destruct (getattr r "high") as [v2|]; cbn [rbind]; [|discriminate].
  destruct (truediv v2 f1e9); cbn [rbind]; [|discriminate].
  destruct (getattr r "low") as [v3|]; cbn [rbind]; [|discriminate].
  destruct (truediv v3 f1e9); cbn [rbind]; [|discriminate].
  destruct (getattr r "close") as [v4|]; cbn [rbind]; [|discriminate].
  destruct (truediv v4 f1e9); cbn [rbind]; [|discriminate].
  destruct (getattr r "volume"); cbn [rbind]; [|discriminate].
  intros H. now injection H as <-.
Qed.

Lemma quote_own (symbol : string) (r : record) (lv : level) (d : event) :
  quote symbol r lv = Ok d -> own_line d = true.
Proof.
  unfold quote.
  destruct (getattr r "ts_event") as [t|]; cbn [rbind]; [|discriminate].
  destruct (format_timestamp t); cbn [rbind]; [|discriminate].
  destruct (px_or_none lv "bid_px"); cbn [rbind]; [|discriminate].
  destruct (px_or_none lv "ask_px"); cbn [rbind]; [|discriminate].
  intros H. now injection H as <-.
Qed.

Lemma keeps_fatal (e : exn) : keeps (fatal e).
Proof.
  unfold fatal. apply keeps_bind; [apply keeps_stmt, keeps_emit; reflexivity|].
  intros _. apply keeps_stmt, keeps_sys_exit.
Qed.

Lemma keeps_import_or_exit (p : provider) : keeps (import_or_exit p).
Proof.
  unfold import_or_exit. apply keeps_stmt, keeps_try_except.
  - apply keeps_stmt, keeps_provider_call.
  - intros _. apply keeps_bind; [apply keeps_stmt, keeps_emit; reflexivity|].
    intros _. apply keeps_stmt, keeps_sys_exit.
Qed.

Lemma keeps_process_record (symbol : string) (r : record) :
  keeps (process_record symbol r).
Proof.
  unfold process_record. apply keeps_bind; [apply keeps_stmt, keeps_ret|].
  intros record_type. apply keeps_stmt.
  destruct (String.eqb record_type "TradeMsg").
  { apply keeps_bind_lift. intros d Hd. apply keeps_emit.
    now apply (live_trade_own symbol r). }
  destruct (String.eqb record_type "OHLCVMsg").
  { apply keeps_bind_lift. intros d Hd. apply keeps_emit.
    now apply (ohlcv_own symbol r). }
  destruct (String.eqb record_type "MBP1Msg").
  { apply keeps_bind_lift. intros [|lv lvs] _; [apply keeps_ret|].
    apply keeps_bind; [apply keeps_stmt, keeps_ret|].
    intros level. apply keeps_stmt, keeps_bind_lift. intros d Hd.
    apply keeps_emit. now apply (quote_own symbol r level). }
  destruct (String.eqb record_type "ErrorMsg").
  { apply keeps_emit. unfold error_notice, str_attr_or.
    now destruct (lookup "err" (fields r)). }
  destruct (String.eqb record_type "SystemMsg").
  { apply keeps_emit. unfold system_notice, str_attr_or.
    now destruct (lookup "msg" (fields r)). }
  apply keeps_ret.
Qed.

Lemma keeps_live_loop (symbol : string) (fin : option exn) (rs : list record) :
  keeps (live_loop symbol rs fin).
Proof.
  induction rs as [|r rs IH]; simpl.
  - apply keeps_stmt. destruct fin; [apply keeps_raise | apply keeps_ret].
  - apply keeps_bind; [|intros _; exact IH].
    apply keeps_stmt, keeps_try_except; [apply keeps_process_record|].
    intros x. apply keeps_stmt, keeps_emit. reflexivity.
Qed.

Lemma keeps_run_live_stream (p : provider) (api_key symbol schema dataset : string) :
  keeps (run_live_stream p api_key symbol schema dataset).
Proof.
  unfold run_live_stream.
  apply keeps_bind; [apply keeps_import_or_exit | intros _].
  apply keeps_bind; [apply keeps_stmt, keeps_emit; reflexivity | intros _].
  apply keeps_stmt, keeps_try_except; [|apply keeps_fatal].
  unfold live_session.
  apply keeps_bind; [apply keeps_stmt, keeps_provider_call | intros _].
  apply keeps_bind; [apply keeps_stmt, keeps_provider_call | intros _].
  apply keeps_bind; [apply keeps_stmt, keeps_emit; reflexivity | intros _].
  apply keeps_bind; [apply keeps_stmt, keeps_emit; reflexivity | intros _].
  apply keeps_bind; [apply keeps_live_loop | intros _].
  apply keeps_stmt, keeps_emit. reflexivity.
Qed.

Lemma keeps_run_historical (p : provider) (api_key symbol schema dataset : string)
    (start end_ limit : option string) :
  keeps (run_historical p api_key symbol schema dataset start end_ limit).
Proof.
  unfold run_historical.
  apply keeps_bind; [apply keeps_import_or_exit | intros _].
  apply keeps_bind; [apply keeps_stmt, keeps_emit; reflexivity | intros _].
  apply keeps_stmt, keeps_try_except; [|apply keeps_fatal].
  unfold historical_fetch.
  apply keeps_bind; [apply keeps_stmt, keeps_provider_call | intros _].
  apply keeps_bind.
  { apply keeps_stmt.
    destruct (build_kwargs symbol schema dataset start end_ limit);
      [apply keeps_ret | apply keeps_raise]. }
  intros kwargs.
  apply keeps_bind; [apply keeps_stmt, keeps_provider_call | intros data].
  apply keeps_bind; [apply keeps_stmt, keeps_provider_call | intros records].
  apply keeps_stmt, keeps_emit. reflexivity.
Qed.

Lemma keeps_main (p : provider) (a : args) : keeps (main p a).
Proof.
  unfold main. destruct (String.eqb (mode a) "live").
  - apply keeps_run_live_stream.
  - apply keeps_run_historical.
Qed.

End Lines.




(** ** Runs that are cut short *)

Lemma stdout_upto_prefix (P : obs -> bool) (o : list obs) :
  forall n, exists k, stdout (upto P n o) = firstn k (stdout o).
Proof.
  induction o as [|x o IH]; intros n.
  - now exists O.
  - simpl. destruct (P x).
    + destruct n as [|n]; [now exists O|].
      destruct (IH n) as (k & Hk). destruct x as [d|c|].
      * exists (S k). simpl. now rewrite Hk.
      * exists k. exact Hk.
      * exists k. exact Hk.
    + destruct (IH n) as (k & Hk). destruct x as [d|c|].
      * exists (S k). simpl. now rewrite Hk.
      * exists k. exact Hk.
      * exists k. exact Hk.
Qed.

Lemma cut_by_signal_main (sg : signum) (p : provider) (a : args) :
  cut_by_signal sg (main p a).
Proof.
  apply cuts_main;
    [reflexivity | apply cut_by_signal_checkpoint | apply cut_by_signal_emit].
Qed.


(** X11. In either mode, a signal that is delivered between two
    statements, whichever they are, ends the run there with status 0:
    the output is a prefix of the output of the undisturbed run followed
    by the one line "shutting_down".  A signal that would come after the
    last statement changes nothing. *)
Theorem signal_between_statements_shuts_down
    (sg : signum) (p : provider) (a : args) (n : nat) :
  let full := main p a quiet in
  let cut := main p a (signal_due sg n) in
  if (count is_boundary (trace_of full) <=? n)%nat then
    trace_of cut = trace_of full /\ outcome_of cut = outcome_of full
  else
    trace_of cut = upto is_boundary n (trace_of full) ++ [Wrote shutting_down] /\
    outcome_of cut = Exit 0 /\
    process_status cut = 0 /\
    exists k, stdout (trace_of cut) = firstn k (stdout (trace_of full)) ++ [shutting_down].
Proof.
  destruct (cut_by_signal_main sg p a) as (r & o & Hq & Hcut).
  specialize (Hcut n). cbv zeta. rewrite Hq, Hcut.
  unfold trace_of, process_status, outcome_of, state_of. cbn [fst snd].
  destruct (count is_boundary o <=? n)%nat; cbn [fst snd].
  - now split.
  - split; [reflexivity|]. split; [reflexivity|]. split; [reflexivity|].
    destruct (stdout_upto_prefix is_boundary o n) as (k & Hk).
    exists k. now rewrite stdout_app, Hk.
Qed.

(** X12. A signal whose handler runs while a line is being written
    never gives the line "shutting_down", in either mode, whichever
    write it falls in and whether or not the reader is still there: the
    write of the handler is refused by the writer that is in use. *)
Theorem signal_inside_write_never_announces
    (p : provider) (a : args) (sg : signum) (n : nat)
    (reader : option nat) (u : bool) :
  ~ In shutting_down
      (stdout (trace_of (main p a (MkSt reader (Some (In_write n, sg)) false u)))).
Proof.
  set (s := MkSt reader (Some (In_write n, sg)) false u).
  destruct (main p a s) as [[r o] s'] eqn:E. unfold trace_of. cbn [fst snd].
  assert (H : Forall (fun d => d <> shutting_down) (stdout o)).
  { eapply (keeps_main no_boundary_signal (fun d => d <> shutting_down));
      [| | |exact E].
    - intros s0 r0 o0 s0' Hs. pose proof Hs as [Hb Hp]. unfold checkpoint.
      destruct (pending s0) as [[[m|m] sg0]|] eqn:Ep; [exfalso; exact Hp| |];
        intros H; injection H as <- <- <-; (split; [exact Hs | constructor]).
    - intros data Hd s0 r0 o0 s0' [Hb Hp] Hrun.
      assert (Hne : data <> shutting_down)
        by (intros ->; discriminate Hd).
      destruct s0 as [pp pd b uu]. cbn [busy pending] in Hb, Hp. subst b.
      unfold emit, emit_over, try_except, print_json, write_and_flush in Hrun.
      cbn [busy pipe pending unflushed] in Hrun.
      destruct pp as [[|k]|]; destruct pd as [[[m|[|m]] sg0]|];
        try contradiction; cbn in Hrun; injection Hrun as <- <- <-;
        (split; [split; [reflexivity | exact I] | repeat constructor; exact Hne]).
    - split; [reflexivity | exact I]. }
  intros Hin. rewrite Forall_forall in H. now apply (H _ Hin).
Qed.

(** ** Arguments of the historical request *)



(** ** Quote records that fault, and the size of the output *)

(** X14. A top-of-book record that has no [levels] attribute faults: the
    round of the live loop writes one error line that names the missing
    attribute, and the loop goes on. *)
Theorem quote_without_levels_faults (symbol : string) (r : record)
    (rs : list record) (fin : option exn) :
  rtype r = "MBP1Msg" -> levels r = None ->
  exists o1 o2 out,
    live_loop symbol rs fin quiet = (out, o2, quiet) /\
    live_loop symbol (r :: rs) fin quiet = (out, o1 ++ o2, quiet) /\
    stdout o1 =
      [[("type", VStr "error");
        ("message",
         VStr "Record processing error: 'MBP1Msg' object has no attribute 'levels'")]].
Proof.
  intros Hty Hlv.
  assert (Hev : live_event symbol r = Err (no_attribute "MBP1Msg" "levels")).
  { unfold live_event, get_levels. now rewrite Hty, Hlv. }
  destruct (round_yields symbol r) as (o1 & H1 & Hv1).
  destruct (live_loop_yields symbol fin rs) as (o2 & H2 & _).
  exists o1, o2, (match fin with None => Done tt | Some x => Raise x end).
  split; [exact H2|]. split.
  - cbn [live_loop]. unfold bind at 1. now rewrite H1, H2.
  - rewrite <- stdout_visible, Hv1. unfold record_lines. now rewrite Hev.
Qed.

Lemma quote_without_levels_faults_witness :
  exists o1 o2 out,
    live_loop "ES.FUT" [sample_trade] None quiet = (out, o2, quiet) /\
    live_loop "ES.FUT" [MkRecord "MBP1Msg" [("ts_event", SInt 0)] None; sample_trade]
      None quiet = (out, o1 ++ o2, quiet) /\
    stdout o1 =
      [[("type", VStr "error");
        ("message",
         VStr "Record processing error: 'MBP1Msg' object has no attribute 'levels'")]].
Proof.
  exact (quote_without_levels_faults "ES.FUT"
           (MkRecord "MBP1Msg" [("ts_event", SInt 0)] None)
           [sample_trade] None eq_refl eq_refl).
Defined.

(** X15. A price of the top level that is there but is not a number (it
    is [None], or a string) makes the division raise [TypeError]: where
    an absent price gives null in the quote, this one replaces the whole
    quote by an error line that names the type of the value. *)
Theorem quote_price_must_be_a_number (symbol : string) (r : record)
    (lv : level) (lvs : list level) (T : Z) (v : scalar) :
  rtype r = "MBP1Msg" -> levels r = Some (lv :: lvs) ->
  lookup "ts_event" (fields r) = Some (SInt T) -> 0 <= T < 2 ^ 64 ->
  lookup "bid_px" lv = Some v -> isinstance_int v = false ->
  exists o,
    live_loop symbol [r] None quiet = (Done tt, o, quiet) /\
    stdout o =
      [[("type", VStr "error");
        ("message",
         VStr ("Record processing error: unsupported operand type(s) for /: '"
               ++ type_name v ++ "' and 'float'"))]].
Proof.
  intros Hty Hlv Hts HT Hb Hv.
  destruct (format_timestamp_uint64 T HT) as (dt & Hf & _).
  assert (Hev : live_event symbol r
                = Err (MkExn TypeError
                         ("unsupported operand type(s) for /: '"
                          ++ type_name v ++ "' and 'float'"))).
  { unfold live_event, get_levels. rewrite Hty, Hlv.
    cbn [String.eqb Ascii.eqb Bool.eqb rbind]. unfold quote.
    rewrite (getattr_lookup _ _ _ Hts). cbn [rbind]. rewrite Hf. cbn [rbind].
    unfold px_or_none at 1. rewrite Hb.
    destruct v; try discriminate Hv; reflexivity. }
  destruct (live_loop_yields symbol None [r]) as (o & Hrun & Hvis).
  exists o. split; [exact Hrun|].
  rewrite <- stdout_visible, Hvis. cbn [flat_map]. rewrite app_nil_r, stdout_map_wrote.
  unfold record_lines. now rewrite Hev.
Qed.

Lemma quote_price_must_be_a_number_witness :
  exists o,
    live_loop "ES.FUT"
      [MkRecord "MBP1Msg" [("ts_event", SInt 1735732800000000000)]
         (Some [[("bid_px", SNone); ("ask_px", SInt 5000250000000)]])]
      None quiet = (Done tt, o, quiet) /\
    stdout o =
      [[("type", VStr "error");
        ("message",
         VStr "Record processing error: unsupported operand type(s) for /: 'NoneType' and 'float'")]].
Proof.
  assert (HT : 0 <= 1735732800000000000 < 2 ^ 64)
    by (vm_compute; split; [discriminate | reflexivity]).
  exact (quote_price_must_be_a_number "ES.FUT"
           (MkRecord "MBP1Msg" [("ts_event", SInt 1735732800000000000)]
              (Some [[("bid_px", SNone); ("ask_px", SInt 5000250000000)]]))
           [("bid_px", SNone); ("ask_px", SInt 5000250000000)] []
           1735732800000000000 SNone eq_refl eq_refl eq_refl HT eq_refl eq_refl).
Defined.

Lemma record_lines_at_most_one (symbol : string) (rs : list record) :
  (List.length (flat_map (record_lines symbol) rs) <= List.length rs)%nat.
Proof.
  induction rs as [|r rs IH]; [apply Nat.le_refl|].
  cbn [flat_map]. rewrite length_app. cbn [List.length].
  assert (List.length (record_lines symbol r) <= 1)%nat.
  { unfold record_lines. destruct (live_event symbol r) as [[d|]|x]; simpl; lia. }
  lia.
Qed.

(** X16. A live session that connects writes at most one line for each
    record of the feed: with [N] records its output has at least the
    four lines of the session itself and at most [N] more. *)
Theorem live_output_is_bounded
    (p : provider) (api_key symbol schema dataset : string) :
  installed p = true -> live_answer p = Ok tt -> subscribe_answer p = Ok tt ->
  exists r o,
    run_live_stream p api_key symbol schema dataset quiet = (r, o, quiet) /\
    (4 <= List.length (stdout o) <= 4 + List.length (feed p))%nat.
Proof.
  intros Hi Hl Hs.
  destruct (run_live_stream_yields p api_key symbol schema dataset Hi Hl Hs)
    as (o & Hrun & Hv).
  eexists. exists o. split; [exact Hrun|].
  rewrite <- stdout_visible, Hv, !stdout_app, stdout_map_wrote, !length_app.
  cbn [stdout List.length].
  pose proof (record_lines_at_most_one symbol (feed p)). lia.
Qed.

Lemma live_output_is_bounded_witness :
  exists r o,
    run_live_stream (sample_provider [sample_trade; sample_heartbeat] None)
      "key" "ES.FUT" "trades" "GLBX.MDP3" quiet = (r, o, quiet) /\
    (4 <= List.length (stdout o) <= 4 + 2)%nat.
Proof.
  exact (live_output_is_bounded (sample_provider [sample_trade; sample_heartbeat] None)
           "key" "ES.FUT" "trades" "GLBX.MDP3" eq_refl eq_refl eq_refl).
Defined.

(** ** The limit of a historical request *)

Lemma parse_digits_step (c : ascii) (d : Z) (s : string) (acc : Z) (b : bool) :
  digit_of c = Some d ->
  parse_digits (String c s) acc b = parse_digits s (10 * acc + d) true.
Proof. intros H. cbn [parse_digits]. now rewrite H. Qed.

Ltac digit_step :=
  erewrite parse_digits_step by (vm_compute; reflexivity).

Lemma parse_digits_acc (d : Decimal.uint) :
  forall acc : positive,
  parse_digits (NilEmpty.string_of_uint d) (Z.pos acc) true
  = Some (Z.pos (Pos.of_uint_acc d acc)).
Proof.
  induction d; intros acc; cbn [NilEmpty.string_of_uint Pos.of_uint_acc];
    [reflexivity | digit_step; rewrite <- IHd; f_equal; lia ..].
Qed.

Lemma parse_digits_of_uint (d : Decimal.uint) (b : bool) :
  d <> Decimal.Nil \/ b = true ->
  parse_digits (NilEmpty.string_of_uint d) 0 b = Some (Z.of_N (Pos.of_uint d)).
Proof.
  revert b. induction d; intros b Hb; cbn [NilEmpty.string_of_uint Pos.of_uint].
  - destruct Hb as [Hb | ->]; [now contradiction Hb | reflexivity].
  - digit_step. apply IHd. now right.
  - digit_step. apply (parse_digits_acc d 1).
  - digit_step. apply (parse_digits_acc d 2).
  - digit_step. apply (parse_digits_acc d 3).
  - digit_step. apply (parse_digits_acc d 4).
  - digit_step. apply (parse_digits_acc d 5).
  - digit_step. apply (parse_digits_acc d 6).
  - digit_step. apply (parse_digits_acc d 7).
  - digit_step. apply (parse_digits_acc d 8).
  - digit_step. apply (parse_digits_acc d 9).
Qed.

Lemma rstrip_string_of_uint (d : Decimal.uint) :
  rstrip (NilEmpty.string_of_uint d) = NilEmpty.string_of_uint d.
Proof.
  induction d; cbn [NilEmpty.string_of_uint rstrip]; [reflexivity | ..];
    rewrite IHd; now destruct (NilEmpty.string_of_uint d).
Qed.

Lemma py_int_of_uint (d : Decimal.uint) :
  d <> Decimal.Nil ->
  py_int (NilEmpty.string_of_uint d) = Ok (Z.of_N (Pos.of_uint d)) /\
  py_int (String "-" (NilEmpty.string_of_uint d)) = Ok (- Z.of_N (Pos.of_uint d)).
Proof.
  intros Hd. unfold py_int. split.
  - replace (lstrip (NilEmpty.string_of_uint d)) with (NilEmpty.string_of_uint d)
      by (now destruct d).
    rewrite rstrip_string_of_uint.
    pose proof (parse_digits_of_uint d false (or_introl Hd)) as H.
    destruct d; try (now contradiction Hd);
      cbn [NilEmpty.string_of_uint] in *; now rewrite H.
  - change (lstrip (String "-" (NilEmpty.string_of_uint d)))
      with (String "-" (NilEmpty.string_of_uint d)).
    cbn [rstrip]. rewrite rstrip_string_of_uint.
    pose proof (parse_digits_of_uint d false (or_introl Hd)) as H.
    destruct d; try (now contradiction Hd);
      cbn [NilEmpty.string_of_uint] in *; now rewrite H.
Qed.

(** [int(str(n))] is [n]. *)
Lemma py_int_str_Z (n : Z) : py_int (str_Z n) = Ok n.
Proof.
  unfold str_Z. destruct n as [|q|q]; [reflexivity | |].
  - cbn [Z.to_int NilZero.string_of_int].
    pose proof (DecimalPos.Unsigned.to_uint_nonnil q) as Hq.
    destruct (py_int_of_uint _ Hq) as [H _].
    rewrite DecimalPos.Unsigned.of_to in H.
    unfold NilZero.string_of_uint.
    destruct (Pos.to_uint q); [now contradiction Hq | exact H ..].
  - cbn [Z.to_int NilZero.string_of_int].
    pose proof (DecimalPos.Unsigned.to_uint_nonnil q) as Hq.
    destruct (py_int_of_uint _ Hq) as [_ H].
    rewrite DecimalPos.Unsigned.of_to in H.
    unfold NilZero.string_of_uint.
    destruct (Pos.to_uint q); [now contradiction Hq | exact H ..].
Qed.

Lemma str_Z_not_empty (n : Z) : str_Z n <> EmptyString.
Proof.
  unfold str_Z. destruct n as [|q|q]; [discriminate | | discriminate].
  cbn [Z.to_int NilZero.string_of_int].
  pose proof (DecimalPos.Unsigned.to_uint_nonnil q) as Hq.
  unfold NilZero.string_of_uint.
  destruct (Pos.to_uint q); [now contradiction Hq | discriminate ..].
Qed.

(** Once the client is there and the arguments are built, the range
    query is made with them, whatever comes of it. *)
Lemma run_historical_asks (p : provider) (api_key symbol schema dataset : string)
    (start end_ limit : option string) (kwargs : list (string * value)) :
  installed p = true -> historical_answer p = Ok tt ->
  build_kwargs symbol schema dataset start end_ limit = Ok kwargs ->
  exists r o,
    run_historical p api_key symbol schema dataset start end_ limit quiet
      = (r, o, quiet) /\
    In (Called (Get_range kwargs)) o.
Proof.
  intros Hi Hh Hk.
  assert (Hin : forall o v, visible o = v ->
                In (Called (Get_range kwargs)) v -> In (Called (Get_range kwargs)) o).
  { intros o v <- H. now apply filter_In in H. }
  assert (Hf : exists r v,
             yields (try_except Exception
                       (historical_fetch p api_key symbol schema dataset
                          start end_ limit) fatal) r v /\
             In (Called (Get_range kwargs)) v).
  { destruct (get_range_answer p kwargs) as [data|x] eqn:Hg.
    - destruct (replay (fst data) (snd data) (collect_record symbol) [])
        as [records|x] eqn:Hr.
      + do 2 eexists. split.
        * apply yields_try_done.
          apply (historical_fetch_yields p api_key symbol schema dataset
                   start end_ limit kwargs data records Hh Hk Hg Hr).
        * cbn. tauto.
      + do 2 eexists. split.
        * eapply yields_try_caught; [|reflexivity|apply fatal_yields].
          unfold historical_fetch. rewrite Hh, Hk.
          eapply yields_bind;
            [apply yields_stmt, (yields_provider_call (Historical api_key) (Ok tt))|].
          eapply yields_bind; [apply yields_stmt, (yields_lift (Ok kwargs))|].
          rewrite Hg.
          eapply yields_bind;
            [apply yields_stmt, (yields_provider_call (Get_range kwargs) (Ok data))|].
          rewrite Hr.
          apply yields_bind_raise, yields_stmt, (yields_provider_call Replay (Err x)).
        * cbn. tauto.
    - do 2 eexists. split.
      + eapply yields_try_caught; [|reflexivity|apply fatal_yields].
        unfold historical_fetch. rewrite Hh, Hk.
        eapply yields_bind;
          [apply yields_stmt, (yields_provider_call (Historical api_key) (Ok tt))|].
        eapply yields_bind; [apply yields_stmt, (yields_lift (Ok kwargs))|].
        rewrite Hg.
        apply yields_bind_raise, yields_stmt,
          (yields_provider_call (Get_range kwargs)
             (@Err (list record * option exn) x)).
      + cbn. tauto. }
  destruct Hf as (r & v & Hy & Hv).
  destruct (run_historical_wrap p api_key symbol schema dataset start end_ limit
              r v Hi Hy) as (o & Hrun & Hvis).
  exists r, o. split; [exact Hrun|].
  apply (Hin o _ Hvis). apply in_or_app. now right.
Qed.

(** X17. A [--limit] that is the decimal writing of an integer [n] is
    passed to the range query as the integer [n], under the key [limit]
    and as the last of the arguments, after the five that are always
    there and after [end] when one is given. *)
Theorem limit_is_passed_as_an_integer
    (p : provider) (api_key symbol schema dataset : string)
    (start end_ : option string) (n : Z) :
  installed p = true -> historical_answer p = Ok tt -> int64 n ->
  exists kwargs r o,
    run_historical p api_key symbol schema dataset start end_ (Some (str_Z n)) quiet
      = (r, o, quiet) /\
    In (Called (Get_range kwargs)) o /\
    lookup "limit" kwargs = Some (VInt n) /\
    map fst kwargs =
      ["dataset"; "schema"; "stype_in"; "symbols"; "start"]
      ++ (if truthy end_ then ["end"] else []) ++ ["limit"].
Proof.
  intros Hi Hh _.
  eassert (Hk : build_kwargs symbol schema dataset start end_ (Some (str_Z n)) = Ok _).
  { unfold build_kwargs.
    replace (truthy (Some (str_Z n))) with true
      by (pose proof (str_Z_not_empty n); now destruct (str_Z n)).
    rewrite py_int_str_Z. reflexivity. }
  destruct (run_historical_asks p api_key symbol schema dataset start end_ _ _
              Hi Hh Hk) as (r & o & Hrun & Hin).
  eexists. exists r, o. split; [exact Hrun|]. split; [exact Hin|].
  destruct (truthy end_); split; reflexivity.
Qed.

Lemma limit_is_passed_as_an_integer_witness :
  exists kwargs r o,
    run_historical (sample_provider [sample_trade] None)
      "key" "ES.FUT" "trades" "GLBX.MDP3" (Some "2025-01-01") (Some "2025-01-02")
      (Some "250") quiet = (r, o, quiet) /\
    In (Called (Get_range kwargs)) o /\
    lookup "limit" kwargs = Some (VInt 250) /\
    map fst kwargs = ["dataset"; "schema"; "stype_in"; "symbols"; "start"; "end"; "limit"].
Proof.
  assert (H : int64 250) by (vm_compute; split; [discriminate | reflexivity]).
  exact (limit_is_passed_as_an_integer (sample_provider [sample_trade] None)
           "key" "ES.FUT" "trades" "GLBX.MDP3" (Some "2025-01-01") (Some "2025-01-02")
           250 eq_refl eq_refl H).
Defined.

(** ** The shape of a timestamp *)

Lemma length_append (s t : string) :
  String.length (s ++ t)%string = (String.length s + String.length t)%nat.
Proof. induction s as [|c s IH]; simpl; [reflexivity | now rewrite IH]. Qed.

Lemma length_digits (w : nat) : forall n, String.length (digits w n) = w.
Proof.
  induction w as [|w IH]; intros n; [reflexivity|].
  cbn [digits]. rewrite length_append, IH. simpl. lia.
Qed.

(** X18. The timestamp of an integer number of nanoseconds below [2 ^ 64]
    is a string of fixed shape: nineteen characters of date and time,
    or twenty-six when the microseconds are not zero, followed by the
    offset "+00:00" of UTC. *)
Theorem timestamp_has_iso_shape (T : Z) :
  0 <= T < 2 ^ 64 ->
  exists body,
    format_timestamp (SInt T) = Ok (body ++ "+00:00")%string /\
    (String.length body = 19 \/ String.length body = 26)%nat.
Proof.
  intros HT. destruct (format_timestamp_uint64 T HT) as (dt & Hf & _).
  exists (isoformat_naive dt). split; [exact Hf|].
  unfold isoformat_naive.
  repeat rewrite length_append. repeat rewrite length_digits.
  destruct (microsecond dt =? 0)%Z.
  - left. reflexivity.
  - right. rewrite length_append, length_digits. reflexivity.
Qed.

Lemma timestamp_has_iso_shape_witness :
  exists body,
    format_timestamp (SInt 1735732800123456789) = Ok (body ++ "+00:00")%string /\
    (String.length body = 19 \/ String.length body = 26)%nat.
Proof.
  assert (HT : 0 <= 1735732800123456789 < 2 ^ 64)
    by (vm_compute; split; [discriminate | reflexivity]).
  exact (timestamp_has_iso_shape 1735732800123456789 HT).
Defined.

(** ** The status of the process *)

Section Codes.

Variable codes : list Z.

#[local] Abbreviation leaves := (leaves_by codes).

Hypothesis zero_allowed : In 0 codes.
Hypothesis one_allowed : In 1 codes.

Lemma leaves_no_exit {A : Type} (m : M A) :
  (forall s, match fst (fst (m s)) with Exit _ => False | _ => True end) -> leaves m.
Proof.
  intros H s r o s' c Hrun ->. specialize (H s). now rewrite Hrun in H.
Qed.

Lemma leaves_ret {A : Type} (a : A) : leaves (ret a).
Proof. now apply leaves_no_exit. Qed.

Lemma leaves_raise {A : Type} (x : exn) : leaves (@raise A x).
Proof. now apply leaves_no_exit. Qed.

Lemma leaves_lift {A : Type} (e : result A) : leaves (lift e).
Proof. destruct e; [apply leaves_ret | apply leaves_raise]. Qed.

Lemma leaves_provider_call {A : Type} (c : call) (e : result A) :
  leaves (provider_call c e).
Proof. apply leaves_no_exit. intros s. unfold provider_call. now destruct e. Qed.

Lemma leaves_sys_exit {A : Type} (c : Z) : In c codes -> leaves (@sys_exit A c).
Proof. intros Hc s r o s' c' H ->. now injection H as <- _ _. Qed.

Lemma leaves_bind {A B : Type} (m : M A) (k : A -> M B) :
  leaves m -> (forall a, leaves (k a)) -> leaves (bind m k).
Proof.
  intros Hm Hk s r o s' c. unfold bind.
  destruct (m s) as [[r1 o1] s1] eqn:E1. destruct r1 as [a|x|c1].
  - destruct (k a s1) as [[r2 o2] s2] eqn:E2.
    intros H ->. injection H as -> _ _. now apply (Hk a _ _ _ _ c E2).
  - intros H ->. discriminate H.
  - intros H ->. injection H as <- _ _. now apply (Hm _ _ _ _ c1 E1).
Qed.

Lemma leaves_try_except {A : Type} (catches : exn -> bool)
    (body : M A) (handler : exn -> M A) :
  leaves body -> (forall x, leaves (handler x)) ->
  leaves (try_except catches body handler).
Proof.
  intros Hb Hh s r o s' c. unfold try_except.
  destruct (body s) as [[r1 o1] s1] eqn:E1. destruct r1 as [a|x|c1].
  - intros H ->. discriminate H.
  - destruct (catches x).
    + destruct (handler x s1) as [[r2 o2] s2] eqn:E2.
      intros H ->. injection H as -> _ _. now apply (Hh x _ _ _ _ c E2).
    + intros H ->. discriminate H.
  - intros H ->. injection H as <- _ _. now apply (Hb _ _ _ _ c1 E1).
Qed.

Lemma leaves_write_and_flush (data : event) : leaves (write_and_flush data).
Proof.
  apply leaves_no_exit. intros s. unfold write_and_flush.
  destruct (busy s); [exact I|]. now destruct (pipe s) as [[|k]|].
Qed.

Lemma leaves_handle_sigterm (sg : signum) : leaves (handle_sigterm sg).
Proof.
  unfold handle_sigterm. apply leaves_bind.
  - apply leaves_try_except; [apply leaves_write_and_flush|].
    intros _. now apply leaves_sys_exit.
  - intros _. now apply leaves_sys_exit.
Qed.

Lemma leaves_checkpoint : leaves checkpoint.
Proof.
  intros s r o s' c. unfold checkpoint.
  destruct (pending s) as [[[[|n]|n] sg]|].
  - intros H. now apply (leaves_handle_sigterm sg _ _ _ _ c H).
  - intros H ->. discriminate H.
  - intros H ->. discriminate H.
  - intros H ->. discriminate H.
Qed.

Lemma leaves_print_json (data : event) : leaves (print_json data).
Proof.
  intros s r o s' c. unfold print_json.
  destruct (write_and_flush data s) as [[r1 o1] s1] eqn:E1.
  destruct r1 as [[]|x|c1].
  - destruct (pending s1) as [[[n|[|n]] sg]|].
    + intros H ->. discriminate H.
    + destruct (handle_sigterm sg _) as [[r2 o2] s2] eqn:E2.
      intros H ->. injection H as -> _ _.
      now apply (leaves_handle_sigterm sg _ _ _ _ c E2).
    + intros H ->. discriminate H.
    + intros H ->. discriminate H.
  - intros H ->. discriminate H.
  - intros H ->. injection H as <- _ _.
    now apply (leaves_write_and_flush data _ _ _ _ c1 E1).
Qed.

Lemma leaves_emit (data : event) : leaves (emit data).
Proof.
  unfold emit, emit_over. apply leaves_try_except; [apply leaves_print_json|].
  intros _. now apply leaves_sys_exit.
Qed.

Lemma leaves_stmt {A : Type} (m : M A) : leaves m -> leaves (stmt m).
Proof.
  intros Hm. unfold stmt. apply leaves_bind; [apply leaves_checkpoint | now intros _].
Qed.

Lemma leaves_fatal (e : exn) : leaves (fatal e).
Proof.
  unfold fatal. apply leaves_bind; [apply leaves_stmt, leaves_emit|].
  intros _. now apply leaves_stmt, leaves_sys_exit.
Qed.

Lemma leaves_import_or_exit (p : provider) : leaves (import_or_exit p).
Proof.
  unfold import_or_exit. apply leaves_stmt, leaves_try_except.
  - apply leaves_stmt, leaves_provider_call.
  - intros _. apply leaves_bind; [apply leaves_stmt, leaves_emit|].
    intros _. now apply leaves_stmt, leaves_sys_exit.
Qed.

Lemma leaves_process_record (symbol : string) (r : record) :
  leaves (process_record symbol r).
Proof.
  unfold process_record. apply leaves_bind; [apply leaves_stmt, leaves_ret|].
  intros record_type. apply leaves_stmt.
  destruct (String.eqb record_type "TradeMsg").
  { apply leaves_bind; [apply leaves_lift | intros d; apply leaves_emit]. }
  destruct (String.eqb record_type "OHLCVMsg").
  { apply leaves_bind; [apply leaves_lift | intros d; apply leaves_emit]. }
  destruct (String.eqb record_type "MBP1Msg").
  { apply leaves_bind; [apply leaves_lift|]. intros [|lv lvs]; [apply leaves_ret|].
    apply leaves_bind; [apply leaves_stmt, leaves_ret|].
    intros level. apply leaves_stmt, leaves_bind;
      [apply leaves_lift | intros d; apply leaves_emit]. }
  destruct (String.eqb record_type "ErrorMsg"); [apply leaves_emit|].
  destruct (String.eqb record_type "SystemMsg"); [apply leaves_emit|].
  apply leaves_ret.
Qed.

Lemma leaves_live_loop (symbol : string) (fin : option exn) (rs : list record) :
  leaves (live_loop symbol rs fin).
Proof.
  induction rs as [|r rs IH]; simpl.
  - apply leaves_stmt. destruct fin; [apply leaves_raise | apply leaves_ret].
  - apply leaves_bind; [|intros _; exact IH].
    apply leaves_stmt, leaves_try_except; [apply leaves_process_record|].
    intros x. apply leaves_stmt, leaves_emit.
Qed.

Lemma leaves_main (p : provider) (a : args) : leaves (main p a).
Proof.
  unfold main. destruct (String.eqb (mode a) "live").
  - unfold run_live_stream.
    apply leaves_bind; [apply leaves_import_or_exit | intros _].
    apply leaves_bind; [apply leaves_stmt, leaves_emit | intros _].
    apply leaves_stmt, leaves_try_except; [|apply leaves_fatal].
    unfold live_session.
    apply leaves_bind; [apply leaves_stmt, leaves_provider_call | intros _].
    apply leaves_bind; [apply leaves_stmt, leaves_provider_call | intros _].
    apply leaves_bind; [apply leaves_stmt, leaves_emit | intros _].
    apply leaves_bind; [apply leaves_stmt, leaves_emit | intros _].
    apply leaves_bind; [apply leaves_live_loop | intros _].
    apply leaves_stmt, leaves_emit.
  - unfold run_historical.
    apply leaves_bind; [apply leaves_import_or_exit | intros _].
    apply leaves_bind; [apply leaves_stmt, leaves_emit | intros _].
    apply leaves_stmt, leaves_try_except; [|apply leaves_fatal].
    unfold historical_fetch.
    apply leaves_bind; [apply leaves_stmt, leaves_provider_call | intros _].
    apply leaves_bind; [apply leaves_stmt, leaves_lift | intros kwargs].
    apply leaves_bind; [apply leaves_stmt, leaves_provider_call | intros data].
    apply leaves_bind; [apply leaves_stmt, leaves_provider_call | intros records].
    apply leaves_stmt, leaves_emit.
Qed.

End Codes.

(** X19. Once the arguments are parsed, whatever the provider answers,
    whenever the reader leaves and wherever a signal is delivered, the
    process ends with status 0, 1 or 120 in either mode: [sys.exit] is
    only ever called with 0 or 1. *)
Theorem status_is_0_1_or_120 (p : provider) (a : args) (s : st) :
  In (process_status (main p a s)) [0; 1; 120].
Proof.
  destruct (main p a s) as [[r o] s'] eqn:E.
  unfold process_status, outcome_of, state_of, exit_status. cbn [fst snd].
  destruct (unflushed s'); [cbn; tauto|].
  destruct r as [[]|x|c]; [cbn; tauto | cbn; tauto |].
  pose proof (leaves_main [0; 1] ltac:(cbn; tauto) ltac:(cbn; tauto) p a s _ _ _ c E eq_refl)
    as H.
  cbn in H |- *. tauto.
Qed.
